(** * HEMT device structure: layer stack, derived geometry and exporters

    A shallow embedding of [device_structures/hemt_structure.py] and the
    properties of its layer-stack model.

    Modelling conventions.
    - Python numbers ([int] and [float] field values) are the exact rationals
      they denote ([Qc], canonical fractions, so that equality is Leibniz
      equality); [+] and the comparisons are exact.  Binary64 rounding and
      the special values (nan, inf) are outside the model.
    - A call that can raise returns a [result]: [Return v] or [Raise e],
      where [e] carries the Python class of the exception and its message.
    - [self.layers] and [self.contacts] are Python lists, here [list];
      mutating methods return the new structure. *)

From Stdlib Require Import List String Ascii Bool Arith ZArith Lia.
From Stdlib Require Import QArith Qcanon Qabs Qpower Lqa.
From Stdlib Require Import DecimalString DecimalNat.
Import ListNotations.

Local Open Scope string_scope.
Local Open Scope list_scope.
Local Open Scope Qc_scope.

(** ** Python prelude: numbers, exceptions, list operations *)

Module Py.

Abbreviation num := Qc (only parsing).

(** A Python [int] literal. *)
Definition of_int (z : Z) : num := Q2Qc (inject_Z z).

(** A decimal literal [n / d], e.g. [1.5] is [of_frac 15 10]. *)
Definition of_frac (n : Z) (d : positive) : num := Q2Qc (n # d).

Definition leb (x y : num) : bool := Qle_bool x y.
Definition ltb (x y : num) : bool := negb (Qle_bool y x).

(** The built-in exception classes that occur, with the classes between
    them and the root of Python's hierarchy. *)
Inductive exc_class : Type :=
| BaseException
| Exception
| LookupError
| IndexError
| KeyError
| ValueError
| StopIteration.

(** The direct base class, as in Python's built-in hierarchy. *)
Definition base (c : exc_class) : option exc_class :=
  match c with
  | BaseException => None
  | Exception => Some BaseException
  | LookupError => Some Exception
  | IndexError => Some LookupError
  | KeyError => Some LookupError
  | ValueError => Some Exception
  | StopIteration => Some Exception
  end.

Definition exc_class_eqb (c d : exc_class) : bool :=
  match c, d with
  | BaseException, BaseException | Exception, Exception
  | LookupError, LookupError | IndexError, IndexError
  | KeyError, KeyError | ValueError, ValueError
  | StopIteration, StopIteration => true
  | _, _ => false
  end.

(** [issubclass c d]; the hierarchy above has depth 4. *)
Fixpoint issubclass_fuel (fuel : nat) (c d : exc_class) : bool :=
  exc_class_eqb c d ||
  match fuel with
  | O => false
  | S fuel' =>
      match base c with
      | Some b => issubclass_fuel fuel' b d
      | None => false
      end
  end.

Definition issubclass (c d : exc_class) : bool := issubclass_fuel 4 c d.

Record exn : Type := mk_exn { exn_class : exc_class; exn_msg : string }.

Definition isinstance (e : exn) (c : exc_class) : bool :=
  issubclass (exn_class e) c.

Inductive result (A : Type) : Type :=
| Return (a : A)
| Raise (e : exn).
Arguments Return {A} a.
Arguments Raise {A} e.

Definition bind {A B} (m : result A) (k : A -> result B) : result B :=
  match m with
  | Return a => k a
  | Raise e => Raise e
  end.

Definition raises {A} (m : result A) (c : exc_class) : Prop :=
  exists e, m = Raise e /\ isinstance e c = true.

(** [sum(iterable)]: start at [0], add the items from left to right. *)
Definition sum (xs : list num) : num := fold_left Qcplus xs 0.

(** [next(i for i, x in enumerate(xs) if p x)], counting from [i]. *)
Fixpoint next_index {A} (p : A -> bool) (i : nat) (xs : list A)
  : result nat :=
  match xs with
  | [] => Raise (mk_exn StopIteration "")
  | x :: rest => if p x then Return i else next_index p (S i) rest
  end.

(** [xs.insert(i, x)] for [0 <= i]: before position [i], at the end when
    [i] is past the end. *)
Definition insert {A} (i : nat) (x : A) (xs : list A) : list A :=
  firstn i xs ++ x :: skipn i xs.

(** [xs[-1]] on a list of numbers known to be non-empty. *)
Definition last (xs : list num) : num := List.last xs 0.

End Py.

Import Py.

Declare Scope py_scope.
Notation "x <- m ;; k" := (bind m (fun x => k))
  (at level 61, m at next level, right associativity) : py_scope.
Notation "m ;;; k" := (bind m (fun _ => k))
  (at level 61, right associativity) : py_scope.
Local Open Scope py_scope.

(** ** LayerType *)

Inductive LayerType : Type :=
| SUBSTRATE
| NUCLEATION
| BUFFER
| CHANNEL
| SPACER
| BARRIER
| CAP
| PASSIVATION
| CONTACT.

(** [LayerType.value] *)
Definition value (t : LayerType) : string :=
  match t with
  | SUBSTRATE => "substrate"
  | NUCLEATION => "nucleation"
  | BUFFER => "buffer"
  | CHANNEL => "channel"
  | SPACER => "spacer"
  | BARRIER => "barrier"
  | CAP => "cap"
  | PASSIVATION => "passivation"
  | CONTACT => "contact"
  end.

Definition LayerType_eqb (a b : LayerType) : bool :=
  match a, b with
  | SUBSTRATE, SUBSTRATE | NUCLEATION, NUCLEATION | BUFFER, BUFFER
  | CHANNEL, CHANNEL | SPACER, SPACER | BARRIER, BARRIER | CAP, CAP
  | PASSIVATION, PASSIVATION | CONTACT, CONTACT => true
  | _, _ => false
  end.

(** ** Layer *)

Module Layer.

Record t : Type := mk {
  name : string;
  material : string;
  thickness : num;                               (* nm *)
  layer_type : LayerType;
  doping_type : option string;                   (* 'n', 'p', or None *)
  doping_concentration : num;                    (* cm^-3 *)
  composition : option (list (string * num))     (* for alloys *)
}.

(** [__post_init__]: validate layer parameters. *)
Definition post_init (self : t) : result unit :=
  if leb (thickness self) 0 then
    Raise (mk_exn ValueError
             ("Layer thickness must be positive: " ++ name self)%string)
  else if ltb (doping_concentration self) 0 then
    Raise (mk_exn ValueError
             ("Doping concentration cannot be negative: " ++ name self)%string)
  else Return tt.

(** [Layer(...)]: the dataclass [__init__] stores the fields, then calls
    [__post_init__]. *)
Definition new (name material : string) (thickness : num)
    (layer_type : LayerType) (doping_type : option string)
    (doping_concentration : num)
    (composition : option (list (string * num))) : result t :=
  let self := mk name material thickness layer_type doping_type
                 doping_concentration composition in
  post_init self ;;; Return self.

End Layer.

(** ** Contact *)

Module Contact.

Record t : Type := mk {
  name : string;
  contact_type : string;                 (* 'ohmic' or 'schottky' *)
  material : string;
  position : num * num;                  (* (x_start, x_end) in um *)
  work_function : option num;            (* eV *)
  contact_resistance : option num        (* Ohm mm *)
}.

(** [Contact(...)]: the dataclass [__init__] stores the fields; the class
    defines no [__post_init__]. *)
Definition new (name contact_type material : string)
    (position : num * num) (work_function contact_resistance : option num)
  : result t :=
  Return (mk name contact_type material position work_function
            contact_resistance).

End Contact.

(** ** HEMTStructure *)

Record HEMTStructure : Type := mk_HEMTStructure {
  substrate_type : string;
  layers : list Layer.t;
  contacts : list Contact.t;
  device_dimensions : list (string * num)
}.

(** [d[key]] on a dict kept as an association list. *)
Fixpoint getitem (d : list (string * num)) (key : string) : result num :=
  match d with
  | [] => Raise (mk_exn KeyError key)
  | (k, v) :: rest => if String.eqb k key then Return v else getitem rest key
  end.

(** [add_layer]: [self.layers.append(layer)]. *)
Definition add_layer (layer : Layer.t) (self : HEMTStructure)
  : HEMTStructure :=
  mk_HEMTStructure (substrate_type self) (layers self ++ [layer])
    (contacts self) (device_dimensions self).

(** [add_contact]: [self.contacts.append(contact)]. *)
Definition add_contact (contact : Contact.t) (self : HEMTStructure)
  : HEMTStructure :=
  mk_HEMTStructure (substrate_type self) (layers self)
    (contacts self ++ [contact]) (device_dimensions self).

(** [_define_contacts]: source, drain and gate contacts. *)
Definition _define_contacts (self : HEMTStructure) : result HEMTStructure :=
  source <- Contact.new "Source" "ohmic" "Ti/Al/Ni/Au"
              (of_int 0, of_int 1) None (Some (of_frac 2 10)) ;;
  let self := add_contact source self in
  drain_start <- getitem (device_dimensions self) "source_drain_spacing" ;;
  drain <- Contact.new "Drain" "ohmic" "Ti/Al/Ni/Au"
             (drain_start, drain_start + of_int 1) None
             (Some (of_frac 2 10)) ;;
  let self := add_contact drain self in
  let gate_start := of_frac 15 10 in
  gate_length <- getitem (device_dimensions self) "gate_length" ;;
  let gate_end := gate_start + gate_length in
  gate <- Contact.new "Gate" "schottky" "Ni/Au" (gate_start, gate_end)
            (Some (of_frac 51 10)) None ;;
  Return (add_contact gate self).

(** [_build_default_structure]: the default InGaN/GaN layer stack. *)
Definition _build_default_structure (self : HEMTStructure)
  : result HEMTStructure :=
  let substrate_thickness :=
    if String.eqb (substrate_type self) "SiC" then of_int 350000
    else if String.eqb (substrate_type self) "Si" then of_int 525000
    else if String.eqb (substrate_type self) "Sapphire" then of_int 430000
    else of_int 300000 in
  l <- Layer.new "Substrate" (substrate_type self) substrate_thickness
         SUBSTRATE None 0 None ;;
  let self := add_layer l self in
  self <- (if negb (String.eqb (substrate_type self) "GaN") then
             l <- Layer.new "Nucleation" "AlN" (of_int 100) NUCLEATION
                    None 0 None ;;
             Return (add_layer l self)
           else Return self) ;;
  l <- Layer.new "Buffer1" "AlGaN" (of_int 500) BUFFER None 0
         (Some [("Al", of_frac 1 10); ("Ga", of_frac 9 10)]) ;;
  let self := add_layer l self in
  l <- Layer.new "Buffer2" "GaN" (of_int 1500) BUFFER (Some "n")
         (of_int (10 ^ 16)) None ;;
  let self := add_layer l self in
  l <- Layer.new "Channel" "GaN" (of_int 300) CHANNEL None
         (of_int (10 ^ 16)) None ;;
  let self := add_layer l self in
  l <- Layer.new "Spacer" "AlN" (of_int 1) SPACER None 0 None ;;
  let self := add_layer l self in
  l <- Layer.new "Barrier" "InAlN" (of_int 15) BARRIER (Some "n")
         (of_int (5 * 10 ^ 18))
         (Some [("In", of_frac 17 100); ("Al", of_frac 83 100)]) ;;
  let self := add_layer l self in
  l <- Layer.new "Cap" "GaN" (of_int 2) CAP (Some "n")
         (of_int (2 * 10 ^ 19)) None ;;
  let self := add_layer l self in
  _define_contacts self.

(** [HEMTStructure(substrate_type)]. *)
Definition HEMTStructure_init (substrate_type : string)
  : result HEMTStructure :=
  let self :=
    mk_HEMTStructure substrate_type [] []
      [("gate_length", of_frac 25 100);
       ("gate_width", of_int 100);
       ("source_drain_spacing", of_int 4);
       ("field_plate_length", of_frac 5 10);
       ("device_length", of_int 10)] in
  _build_default_structure self.

Definition is_substrate (layer : Layer.t) : bool :=
  LayerType_eqb (Layer.layer_type layer) SUBSTRATE.



(** The loop of [get_layer_boundaries] over the layers still to visit, with
    the list built so far and the running depth [z]. *)
Fixpoint boundaries_loop (todo : list Layer.t) (boundaries : list num)
    (z : num) : list num :=
  match todo with
  | [] => boundaries
  | layer :: rest =>
      if negb (is_substrate layer) then
        let z := z + Layer.thickness layer in
        boundaries_loop rest (boundaries ++ [z]) z
      else boundaries_loop rest boundaries z
  end.

(** [get_layer_boundaries]: z-coordinates of the layer boundaries, in nm
    from the top. *)
Definition get_layer_boundaries (self : HEMTStructure) : list num :=
  boundaries_loop (rev (layers self)) [0] 0.

(** The loop of [get_2deg_position]; reaching a barrier leaves the loop. *)
Fixpoint two_deg_loop (todo : list Layer.t) (z : num) : num :=
  match todo with
  | [] => z
  | layer :: rest =>
      if LayerType_eqb (Layer.layer_type layer) CAP then
        two_deg_loop rest (z + Layer.thickness layer)
      else if LayerType_eqb (Layer.layer_type layer) BARRIER then
        z + Layer.thickness layer + of_frac 15 10
      else two_deg_loop rest z
  end.

(** [get_2deg_position]: approximate 2DEG depth below the surface, in nm. *)
Definition get_2deg_position (self : HEMTStructure) : num :=
  two_deg_loop (rev (layers self)) 0.

(** ** AdvancedHEMTStructure *)

Record FieldPlate : Type := mk_FieldPlate {
  fp_name : string;
  fp_material : string;
  fp_position : num * num;
  fp_height : num
}.

Record Passivation : Type := mk_Passivation {
  pv_material : string;
  pv_thickness : num
}.

Record AdvancedHEMTStructure : Type := mk_AdvancedHEMTStructure {
  hemt : HEMTStructure;
  field_plates : list FieldPlate;
  passivation_layers : list Passivation
}.


Definition add_field_plate (name material : string) (position : num * num)
    (height : num) (self : AdvancedHEMTStructure) : AdvancedHEMTStructure :=
  mk_AdvancedHEMTStructure (hemt self)
    (field_plates self ++ [mk_FieldPlate name material position height])
    (passivation_layers self).

Definition add_passivation (material : string) (thickness : num)
    (self : AdvancedHEMTStructure) : AdvancedHEMTStructure :=
  mk_AdvancedHEMTStructure (hemt self) (field_plates self)
    (passivation_layers self ++ [mk_Passivation material thickness]).

Definition is_channel (layer : Layer.t) : bool :=
  LayerType_eqb (Layer.layer_type layer) CHANNEL.

(** The [layers] list after [add_back_barrier], or the exception raised:
    first the index of the channel, then the new layer, then the insert. *)
Definition back_barrier_layers (thickness doping_concentration : num)
    (ls : list Layer.t) : result (list Layer.t) :=
  channel_idx <- next_index is_channel 0 ls ;;
  back_barrier <- Layer.new "BackBarrier" "AlGaN" thickness BUFFER
                    (Some "p") doping_concentration
                    (Some [("Al", of_frac 5 100); ("Ga", of_frac 95 100)]) ;;
  Return (Py.insert (channel_idx + 1) back_barrier ls).

(** [add_back_barrier(thickness, doping_concentration)]. *)
Definition add_back_barrier (thickness doping_concentration : num)
    (self : AdvancedHEMTStructure) : result AdvancedHEMTStructure :=
  ls <- back_barrier_layers thickness doping_concentration
          (layers (hemt self)) ;;
  Return (mk_AdvancedHEMTStructure
            (mk_HEMTStructure (substrate_type (hemt self)) ls
               (contacts (hemt self)) (device_dimensions (hemt self)))
            (field_plates self) (passivation_layers self)).

(** The defaults of [add_back_barrier]: 50 nm, 5e18 cm^-3. *)
Definition default_back_barrier_thickness : num := of_int 50.
Definition default_back_barrier_doping : num := of_int (5 * 10 ^ 18).

(** ** Text formatting used by the TCAD-script export *)

Definition dquote : string := String (ascii_of_nat 34) EmptyString.
Definition newline : string := String (ascii_of_nat 10) EmptyString.

(** [str(i)] for a non-negative [int]. *)
Definition str_nat (i : nat) : string :=
  NilEmpty.string_of_uint (Nat.to_uint i).

Definition digit (z : Z) : ascii := ascii_of_nat (48 + Z.to_nat z).

(** Is [10 ^ e <= n / d], for positive [n] and [d]? *)
Definition ge_pow10 (n d e : Z) : bool :=
  if (0 <=? e)%Z then (10 ^ e * d <=? n)%Z else (d <=? n * 10 ^ (- e))%Z.

(** The decimal exponent of [n / d]: starting from an [e] with
    [10 ^ e <= n / d], the last one for which that holds. *)
Fixpoint find_exp (fuel : nat) (n d e : Z) : Z :=
  match fuel with
  | O => e
  | S fuel' =>
      if ge_pow10 n d (e + 1) then find_exp fuel' n d (e + 1)%Z else e
  end.

Definition decimal_exponent (n d : Z) : Z :=
  find_exp (Z.to_nat (Z.log2 n + Z.log2 d + 3)) n d (- (Z.log2 d + 1)).

(** [a / b] rounded to the nearest integer, ties to the even one. *)
Definition round_half_even (a b : Z) : Z :=
  let q := (a / b)%Z in
  let r := (a mod b)%Z in
  if (2 * r <? b)%Z then q
  else if (b <? 2 * r)%Z then (q + 1)%Z
  else if Z.even q then q else (q + 1)%Z.

(** The three significant digits (as an integer from 100 to 999) and the
    exponent of the positive fraction [n / d] in scientific notation. *)
Definition sci3 (n d : Z) : Z * Z :=
  let e := decimal_exponent n d in
  let m :=
    if (0 <=? e)%Z then round_half_even (100 * n) (d * 10 ^ e)
    else round_half_even (100 * n * 10 ^ (- e)) d in
  if (m =? 1000)%Z then (100, e + 1)%Z else (m, e).

(** Exponent field: sign, then at least two digits. *)
Definition exp_field (e : Z) : string :=
  let a := Z.abs e in
  String (if (e <? 0)%Z then "-"%char else "+"%char)
    (if (a <? 10)%Z then String "0"%char (String (digit a) EmptyString)
     else str_nat (Z.to_nat a)).

Definition mantissa_field (m : Z) : string :=
  (str_nat (Z.to_nat (m / 100)) ++ "." ++
   String (digit ((m / 10) mod 10))
     (String (digit (m mod 10)) EmptyString))%string.

(** [format(x, '.2e')]: two-decimal scientific notation. *)
Definition format_2e (x : num) : string :=
  let n := Qnum x in
  let d := Z.pos (Qden x) in
  if (n =? 0)%Z then "0.00e+00"
  else
    let (m, e) := sci3 (Z.abs n) d in
    ((if (n <? 0)%Z then "-" else "") ++ mantissa_field m ++ "e" ++
     exp_field e)%string.

(** ** TCAD-script export: the doping directives *)

(** One directive: the three [f.write] calls of the doping loop. *)
Definition doping_directive (i : nat) (layer : Layer.t) : string :=
  let doping_type :=
    match Layer.doping_type layer with
    | Some s => if String.eqb s "n" then "donor" else "acceptor"
    | None => "acceptor"
    end in
  (("(define doping_" ++ str_nat i ++ " (constant ") ++
   (dquote ++ Layer.name layer ++ dquote ++ " " ++
    dquote ++ doping_type ++ dquote ++ " ") ++
   (format_2e (Layer.doping_concentration layer) ++ "))" ++ newline))%string.

(** The loop [for i, layer in enumerate(self.layers)] of
    [export_sentaurus_structure], from index [i], appending to the text
    chunks written so far. *)
Fixpoint doping_loop (i : nat) (todo : list Layer.t) (out : list string)
  : list string :=
  match todo with
  | [] => out
  | layer :: rest =>
      if ltb 0 (Layer.doping_concentration layer) then
        doping_loop (S i) rest (out ++ [doping_directive i layer])
      else doping_loop (S i) rest out
  end.

(** The doping part of [export_sentaurus_structure]: the comment line, then
    the directives. *)
Definition sentaurus_doping (self : HEMTStructure) : list string :=
  doping_loop 0 (layers self) [("# Doping profiles" ++ newline)%string].

(** ** Interchange document *)

#[local] Set Warnings "-register-all".

Inductive json : Type :=
| JNull
| JNum (x : num)
| JStr (s : string)
| JList (items : list json)
| JDict (entries : list (string * json)).

Definition json_opt {A} (f : A -> json) (o : option A) : json :=
  match o with
  | Some a => f a
  | None => JNull
  end.

Definition json_num_dict (d : list (string * num)) : json :=
  JDict (map (fun kv => (fst kv, JNum (snd kv))) d).

Definition layer_dict (layer : Layer.t) : json :=
  JDict [("name", JStr (Layer.name layer));
         ("material", JStr (Layer.material layer));
         ("thickness", JNum (Layer.thickness layer));
         ("type", JStr (value (Layer.layer_type layer)));
         ("doping_type", json_opt JStr (Layer.doping_type layer));
         ("doping_concentration", JNum (Layer.doping_concentration layer));
         ("composition", json_opt json_num_dict (Layer.composition layer))].

Definition contact_dict (contact : Contact.t) : json :=
  JDict [("name", JStr (Contact.name contact));
         ("type", JStr (Contact.contact_type contact));
         ("material", JStr (Contact.material contact));
         ("position", JList [JNum (fst (Contact.position contact));
                             JNum (snd (Contact.position contact))]);
         ("work_function", json_opt JNum (Contact.work_function contact));
         ("contact_resistance",
          json_opt JNum (Contact.contact_resistance contact))].

(** [export_python_mesh]: the document handed to [json.dump]. *)
Definition export_python_mesh (self : HEMTStructure) : json :=
  JDict [("substrate_type", JStr (substrate_type self));
         ("dimensions", json_num_dict (device_dimensions self));
         ("layers", JList (map layer_dict (layers self)));
         ("contacts", JList (map contact_dict (contacts self)))].

(** *** Reading the document back *)

Fixpoint lookup (key : string) (d : list (string * json)) : option json :=
  match d with
  | [] => None
  | (k, v) :: rest => if String.eqb k key then Some v else lookup key rest
  end.

Definition keys (j : json) : list string :=
  match j with
  | JDict d => map fst d
  | _ => []
  end.

Definition field (key : string) (j : json) : option json :=
  match j with
  | JDict d => lookup key d
  | _ => None
  end.

Definition as_str (j : json) : option string :=
  match j with JStr s => Some s | _ => None end.

Definition as_num (j : json) : option num :=
  match j with JNum x => Some x | _ => None end.

(** An optional field: the null marker reads back as [None]. *)
Definition as_opt {A} (f : json -> option A) (j : json)
  : option (option A) :=
  match j with
  | JNull => Some None
  | _ => match f j with Some a => Some (Some a) | None => None end
  end.

Fixpoint all_some {A} (xs : list (option A)) : option (list A) :=
  match xs with
  | [] => Some []
  | Some a :: rest =>
      match all_some rest with Some r => Some (a :: r) | None => None end
  | None :: _ => None
  end.

Definition as_num_dict (j : json) : option (list (string * num)) :=
  match j with
  | JDict d =>
      all_some (map (fun kv => match as_num (snd kv) with
                               | Some x => Some (fst kv, x)
                               | None => None
                               end) d)
  | _ => None
  end.

Definition as_pair (j : json) : option (num * num) :=
  match j with
  | JList [JNum a; JNum b] => Some (a, b)
  | _ => None
  end.

(** [LayerType(s)]: the member whose value is [s]. *)
Definition LayerType_of_value (s : string) : option LayerType :=
  find (fun t => String.eqb (value t) s)
    [SUBSTRATE; NUCLEATION; BUFFER; CHANNEL; SPACER; BARRIER; CAP;
     PASSIVATION; CONTACT].

Definition obind {A B} (o : option A) (k : A -> option B) : option B :=
  match o with Some a => k a | None => None end.

Notation "x <-? o ;; k" := (obind o (fun x => k))
  (at level 61, o at next level, right associativity) : py_scope.

(** Modelled from the spec: the repository has no reader of the interchange
    document; this is the reconstruction of a Layer record that the
    round-trip property speaks of, one field per key of [layer_dict]. *)
Definition layer_of_json (j : json) : option Layer.t :=
  name <-? obind (field "name" j) as_str ;;
  material <-? obind (field "material" j) as_str ;;
  thickness <-? obind (field "thickness" j) as_num ;;
  layer_type <-? obind (obind (field "type" j) as_str) LayerType_of_value ;;
  doping_type <-? obind (field "doping_type" j) (as_opt as_str) ;;
  doping_concentration <-? obind (field "doping_concentration" j) as_num ;;
  composition <-? obind (field "composition" j) (as_opt as_num_dict) ;;
  Some (Layer.mk name material thickness layer_type doping_type
          doping_concentration composition).

(** Modelled from the spec: the reconstruction of a Contact record. *)
Definition contact_of_json (j : json) : option Contact.t :=
  name <-? obind (field "name" j) as_str ;;
  contact_type <-? obind (field "type" j) as_str ;;
  material <-? obind (field "material" j) as_str ;;
  position <-? obind (field "position" j) as_pair ;;
  work_function <-? obind (field "work_function" j) (as_opt as_num) ;;
  contact_resistance <-?
    obind (field "contact_resistance" j) (as_opt as_num) ;;
  Some (Contact.mk name contact_type material position work_function
          contact_resistance).

Definition as_list {A} (f : json -> option A) (j : json)
  : option (list A) :=
  match j with
  | JList items => all_some (map f items)
  | _ => None
  end.

(** Modelled from the spec: the Layer and Contact records of a document. *)
Definition records_of_json (j : json)
  : option (list Layer.t * list Contact.t) :=
  ls <-? obind (field "layers" j) (as_list layer_of_json) ;;
  cs <-? obind (field "contacts" j) (as_list contact_of_json) ;;
  Some (ls, cs).

(** ** Inherited methods on the extended structure *)


(** ** TCAD-script export: the region records *)

(** The values that one pass of the region loop puts into its
    [(define region_i (cuboid ...))] and [(define name (region ...))]
    lines.  How the numbers are printed is not modelled. *)
Record Region : Type := mk_Region {
  region_index : nat;
  region_z_top : num;
  region_length : num;
  region_width : num;
  region_z_bottom : num;
  region_name : string;
  region_material : string
}.

(** The loop [for i, layer in enumerate(reversed(self.layers))] of
    [export_sentaurus_structure], from index [i], with the running
    [z_top] (in um) and the records produced so far. *)
Fixpoint regions_loop (dimensions : list (string * num)) (i : nat)
    (todo : list Layer.t) (z_top : num) (out : list Region)
  : result (list Region) :=
  match todo with
  | [] => Return out
  | layer :: rest =>
      if negb (is_substrate layer) then
        let z_bottom := z_top + Layer.thickness layer / of_int 1000 in
        device_length <- getitem dimensions "device_length" ;;
        gate_width <- getitem dimensions "gate_width" ;;
        regions_loop dimensions (S i) rest z_bottom
          (out ++ [mk_Region i z_top device_length gate_width z_bottom
                     (Layer.name layer) (Layer.material layer)])
      else regions_loop dimensions (S i) rest z_top out
  end.

Definition sentaurus_regions (self : HEMTStructure) : result (list Region) :=
  regions_loop (device_dimensions self) 0 (rev (layers self)) 0 [].

(** ** view_project.py: which lines of a file are shown *)

Module ViewProject.

(** One [print] call of the line loops of [print_file_content]: a numbered
    line ([number] and the line that is stripped and printed), or the
    marker that says how many lines were left out. *)
Inductive printed : Type :=
| Line (number : Z) (line : string)
| Omitted (count : Z).

(** [lines[i]]: a negative index counts from the end; outside the list it
    raises [IndexError]. *)
Definition item (lines : list string) (i : Z) : result string :=
  let n := Z.of_nat (List.length lines) in
  let j := if (i <? 0)%Z then (i + n)%Z else i in
  if ((0 <=? j)%Z && (j <? n)%Z)%bool then
    Return (nth (Z.to_nat j) lines EmptyString)
  else Raise (mk_exn IndexError "list index out of range").

(** [range(a, b)] *)
Definition range (a b : Z) : list Z :=
  map (fun k => (a + Z.of_nat k)%Z) (seq 0 (Z.to_nat (b - a))).

(** [for i, line in enumerate(lines, i)], printing every line. *)
Fixpoint print_all (i : Z) (lines : list string) : list printed :=
  match lines with
  | [] => []
  | line :: rest => Line i line :: print_all (i + 1)%Z rest
  end.

(** [for i in indices: if guard i: print(i + 1, lines[i])] *)
Fixpoint print_guarded (guard : Z -> bool) (indices : list Z)
    (lines : list string) : result (list printed) :=
  match indices with
  | [] => Return []
  | i :: rest =>
      if guard i then
        line <- item lines i ;;
        more <- print_guarded guard rest lines ;;
        Return (Line (i + 1)%Z line :: more)
      else print_guarded guard rest lines
  end.

(** The body of the [try] of [print_file_content], once [lines] has been
    read: what it prints, or the exception that the handler would catch. *)
Definition print_lines (lines : list string) (max_lines : Z)
  : result (list printed) :=
  let total_lines := Z.of_nat (List.length lines) in
  if (total_lines <=? max_lines)%Z then Return (print_all 1 lines)
  else
    first <- print_guarded (fun i => (i <? Z.of_nat (List.length lines))%Z)
               (range 0 25) lines ;;
    last <- print_guarded (fun i => (0 <=? i)%Z)
              (range (total_lines - 25) total_lines) lines ;;
    Return (first ++ [Omitted (total_lines - 50)%Z] ++ last).

(** The default of [max_lines]. *)
Definition default_max_lines : Z := 50.

Definition numbers (out : list printed) : list Z :=
  flat_map (fun p => match p with Line k _ => [k] | Omitted _ => [] end) out.

End ViewProject.

(** ** Vocabulary of the properties *)

(** The structure that [HEMTStructure(substrate_type)] builds. *)
Definition default_substrate_thickness (substrate_type : string) : num :=
  if String.eqb substrate_type "SiC" then of_int 350000
  else if String.eqb substrate_type "Si" then of_int 525000
  else if String.eqb substrate_type "Sapphire" then of_int 430000
  else of_int 300000.

Definition default_layers (substrate_type : string) : list Layer.t :=
  Layer.mk "Substrate" substrate_type
    (default_substrate_thickness substrate_type) SUBSTRATE None 0 None ::
  (if negb (String.eqb substrate_type "GaN") then
     [Layer.mk "Nucleation" "AlN" (of_int 100) NUCLEATION None 0 None]
   else []) ++
  [Layer.mk "Buffer1" "AlGaN" (of_int 500) BUFFER None 0
     (Some [("Al", of_frac 1 10); ("Ga", of_frac 9 10)]);
   Layer.mk "Buffer2" "GaN" (of_int 1500) BUFFER (Some "n")
     (of_int (10 ^ 16)) None;
   Layer.mk "Channel" "GaN" (of_int 300) CHANNEL None (of_int (10 ^ 16)) None;
   Layer.mk "Spacer" "AlN" (of_int 1) SPACER None 0 None;
   Layer.mk "Barrier" "InAlN" (of_int 15) BARRIER (Some "n")
     (of_int (5 * 10 ^ 18))
     (Some [("In", of_frac 17 100); ("Al", of_frac 83 100)]);
   Layer.mk "Cap" "GaN" (of_int 2) CAP (Some "n") (of_int (2 * 10 ^ 19)) None].

Definition default_contacts : list Contact.t :=
  [Contact.mk "Source" "ohmic" "Ti/Al/Ni/Au" (of_int 0, of_int 1) None
     (Some (of_frac 2 10));
   Contact.mk "Drain" "ohmic" "Ti/Al/Ni/Au" (of_int 4, of_int 4 + of_int 1)
     None (Some (of_frac 2 10));
   Contact.mk "Gate" "schottky" "Ni/Au"
     (of_frac 15 10, of_frac 15 10 + of_frac 25 100)
     (Some (of_frac 51 10)) None].

Definition default_dimensions : list (string * num) :=
  [("gate_length", of_frac 25 100);
   ("gate_width", of_int 100);
   ("source_drain_spacing", of_int 4);
   ("field_plate_length", of_frac 5 10);
   ("device_length", of_int 10)].

Definition default_structure (substrate_type : string) : HEMTStructure :=
  mk_HEMTStructure substrate_type (default_layers substrate_type)
    default_contacts default_dimensions.

(** The layer that [add_back_barrier] constructs. *)
Definition back_barrier (thickness doping_concentration : num) : Layer.t :=
  Layer.mk "BackBarrier" "AlGaN" thickness BUFFER (Some "p")
    doping_concentration
    (Some [("Al", of_frac 5 100); ("Ga", of_frac 95 100)]).

(** The stack invariant of the data model: at most one substrate-type
    layer, and a substrate-type layer can only be at the first position. *)
Definition substrate_invariant (ls : list Layer.t) : Prop :=
  (List.length (filter is_substrate ls) <= 1)%nat /\
  forall i layer,
    nth_error ls i = Some layer -> is_substrate layer = true -> i = 0%nat.

(** The same, as a test: no layer after the first is of substrate type. *)
Definition substrate_ok (ls : list Layer.t) : bool :=
  forallb (fun layer => negb (is_substrate layer)) (tl ls).

Definition is_cap (layer : Layer.t) : bool :=
  LayerType_eqb (Layer.layer_type layer) CAP.

Definition is_barrier (layer : Layer.t) : bool :=
  LayerType_eqb (Layer.layer_type layer) BARRIER.

(** The thicknesses of the epitaxial (non-substrate) layers, top first. *)
Definition epi_thicknesses_top_down (self : HEMTStructure) : list num :=
  map Layer.thickness
    (filter (fun layer => negb (is_substrate layer)) (rev (layers self))).

(** The running sums [[0; t1; t1 + t2; ...]] of [[t1; t2; ...]], stated
    directly: the [k]-th entry is the sum of the first [k] items. *)
Definition running_sums (ts : list num) : list num :=
  map (fun k => Py.sum (firstn k ts)) (seq 0 (S (List.length ts))).

Definition non_decreasing (xs : list num) : Prop :=
  forall i, (S i < List.length xs)%nat -> nth i xs 0 <= nth (S i) xs 0.



(** Example data: the default SiC structure as an extended structure, a
    structure whose layer list holds no channel, and a second substrate. *)
Definition default_advanced : AdvancedHEMTStructure :=
  mk_AdvancedHEMTStructure (default_structure "SiC") [] [].

Definition without_channel : AdvancedHEMTStructure :=
  mk_AdvancedHEMTStructure
    (mk_HEMTStructure "SiC"
       [Layer.mk "Substrate" "SiC" (of_int 350000) SUBSTRATE None 0 None;
        Layer.mk "Buffer1" "AlGaN" (of_int 500) BUFFER None 0 None]
       default_contacts default_dimensions)
    [] [].

Definition second_substrate : Layer.t :=
  Layer.mk "Substrate2" "Si" (of_int 525000) SUBSTRATE None 0 None.

(** The partial sums of [ts] on top of [z]: [[z + t1; z + t1 + t2; ...]]. *)
Fixpoint scan (z : num) (ts : list num) : list num :=
  match ts with
  | [] => []
  | t :: rest => (z + t) :: scan (z + t) rest
  end.

(** The text of one doping directive, given its parts. *)
Definition directive_text (i : nat) (name kind number : string) : string :=
  ("(define doping_" ++ str_nat i ++ " (constant " ++
   dquote ++ name ++ dquote ++ " " ++ dquote ++ kind ++ dquote ++ " " ++
   number ++ "))" ++ newline)%string.








Definition default_spacer : Layer.t :=
  Layer.mk "Spacer" "AlN" (of_int 1) SPACER None 0 None.

(** A layer as [Layer(...)] lets it through. *)
Definition valid_layer (layer : Layer.t) : Prop :=
  0 < Layer.thickness layer /\ 0 <= Layer.doping_concentration layer.




(** The region records for the layers [todo] (top first), numbered from
    [i], below [z_top], once both in-plane dimensions are known. *)
Fixpoint regions_from (device_length gate_width : num) (i : nat)
    (z_top : num) (todo : list Layer.t) : list Region :=
  match todo with
  | [] => []
  | layer :: rest =>
      if negb (is_substrate layer) then
        mk_Region i z_top device_length gate_width
          (z_top + Layer.thickness layer / of_int 1000)
          (Layer.name layer) (Layer.material layer) ::
        regions_from device_length gate_width (S i)
          (z_top + Layer.thickness layer / of_int 1000) rest
      else regions_from device_length gate_width (S i) z_top rest
  end.


(** * Properties *)

(** ** Numbers and sums *)

Section Numbers.

Lemma leb_le (x y : num) : leb x y = true <-> x <= y.
Proof. unfold leb, Qcle. apply Qle_bool_iff. Qed.

Lemma leb_gt (x y : num) : leb x y = false <-> y < x.
Proof.
  unfold leb, Qclt. rewrite <- not_true_iff_false, Qle_bool_iff.
  split; [apply Qnot_le_lt | apply Qlt_not_le].
Qed.

Lemma ltb_lt (x y : num) : ltb x y = true <-> x < y.
Proof. unfold ltb. rewrite negb_true_iff. apply leb_gt. Qed.

Lemma ltb_ge (x y : num) : ltb x y = false <-> y <= x.
Proof. unfold ltb. rewrite negb_false_iff. apply leb_le. Qed.

Lemma fold_plus_acc (xs : list num) (a : num) :
  fold_left Qcplus xs a = a + Py.sum xs.
Proof.
  unfold Py.sum. revert a.
  induction xs as [|x xs IH]; intro a; simpl.
  - ring.
  - rewrite IH, (IH (0 + x)). ring.
Qed.

Lemma sum_nil : Py.sum [] = 0.
Proof. reflexivity. Qed.

Lemma sum_cons (x : num) (xs : list num) : Py.sum (x :: xs) = x + Py.sum xs.
Proof.
  unfold Py.sum at 1. simpl. rewrite fold_plus_acc. ring.
Qed.

Lemma sum_app (xs ys : list num) :
  Py.sum (xs ++ ys) = Py.sum xs + Py.sum ys.
Proof.
  induction xs as [|x xs IH]; simpl.
  - rewrite sum_nil. ring.
  - rewrite !sum_cons, IH. ring.
Qed.

Lemma sum_rev (xs : list num) : Py.sum (rev xs) = Py.sum xs.
Proof.
  induction xs as [|x xs IH]; simpl; [reflexivity|].
  rewrite sum_app, IH, !sum_cons, sum_nil. ring.
Qed.


End Numbers.

(** ** Layer and Contact construction *)

Lemma Layer_new_ok name material thickness layer_type doping_type
    doping_concentration composition :
  0 < thickness -> 0 <= doping_concentration ->
  Layer.new name material thickness layer_type doping_type
    doping_concentration composition =
  Return (Layer.mk name material thickness layer_type doping_type
            doping_concentration composition).
Proof.
  intros Ht Hd. unfold Layer.new, Layer.post_init; simpl.
  apply leb_gt in Ht. apply ltb_ge in Hd. now rewrite Ht, Hd.
Qed.

Lemma Layer_new_raises name material thickness layer_type doping_type
    doping_concentration composition :
  thickness <= 0 \/ doping_concentration < 0 ->
  raises (Layer.new name material thickness layer_type doping_type
            doping_concentration composition) ValueError.
Proof.
  intros H. unfold Layer.new, Layer.post_init, raises; simpl.
  destruct (leb thickness 0) eqn:Ht.
  - eexists; split; reflexivity.
  - destruct H as [H | H].
    + apply leb_le in H. congruence.
    + apply ltb_lt in H. rewrite H. eexists; split; reflexivity.
Qed.

(** C9. Constructing a Layer raises the validation error (the code's
    [ValueError]) when the thickness is at most 0 and when the doping
    concentration is negative; with a positive thickness and a doping
    concentration equal to 0 it does not raise and returns the record. *)
Theorem Layer_construction_validation :
  forall name material thickness layer_type doping_type
         doping_concentration composition,
    let built := Layer.new name material thickness layer_type doping_type
                   doping_concentration composition in
    (thickness <= 0 -> raises built ValueError) /\
    (doping_concentration < 0 -> raises built ValueError) /\
    (0 < thickness -> doping_concentration = 0 ->
     built = Return (Layer.mk name material thickness layer_type doping_type
                       doping_concentration composition)).
Proof.
  intros. subst built. repeat split.
  - intro H. apply Layer_new_raises. now left.
  - intro H. apply Layer_new_raises. now right.
  - intros Ht Hd. apply Layer_new_ok; [assumption|].
    rewrite Hd. apply Qcle_refl.
Qed.

Lemma Layer_construction_validation_witness :
  raises (Layer.new "Cap" "GaN" 0 CAP None 0 None) ValueError /\
  raises (Layer.new "Cap" "GaN" (of_int 2) CAP (Some "n") (of_int (-1)) None)
    ValueError /\
  Layer.new "Cap" "GaN" (of_int 2) CAP None 0 None =
  Return (Layer.mk "Cap" "GaN" (of_int 2) CAP None 0 None).
Proof.
  split; [|split].
  - apply (proj1 (Layer_construction_validation "Cap" "GaN" 0 CAP None 0
                    None)).
    vm_compute. intro H. discriminate H.
  - apply (proj1 (proj2 (Layer_construction_validation "Cap" "GaN" (of_int 2)
                           CAP (Some "n") (of_int (-1)) None))).
    reflexivity.
  - apply (proj2 (proj2 (Layer_construction_validation "Cap" "GaN" (of_int 2)
                           CAP None 0 None))); reflexivity.
Defined.

(** C1, as the code has it. Constructing a Contact never fails, whatever
    its position pair: the record is returned with the fields as given, also
    when [x_start >= x_end]. *)
Theorem Contact_construction_total :
  forall name contact_type material position work_function
         contact_resistance,
    Contact.new name contact_type material position work_function
      contact_resistance =
    Return (Contact.mk name contact_type material position work_function
              contact_resistance).
Proof. reflexivity. Qed.

(** C1 fails as stated: a Contact whose position has [x_start > x_end] is
    constructed without any error. *)
Lemma Contact_degenerate_position_accepted :
  snd (of_int 2, of_int 1) <= fst (of_int 2, of_int 1) /\
  Contact.new "Gate" "schottky" "Ni/Au" (of_int 2, of_int 1)
    (Some (of_frac 51 10)) None =
  Return (Contact.mk "Gate" "schottky" "Ni/Au" (of_int 2, of_int 1)
            (Some (of_frac 51 10)) None) /\
  ~ raises (Contact.new "Gate" "schottky" "Ni/Au" (of_int 2, of_int 1)
              (Some (of_frac 51 10)) None) ValueError.
Proof.
  split; [vm_compute; intro H; discriminate H|]. split; [reflexivity|].
  intros [e [H _]]. discriminate H.
Qed.

(** ** The default structure *)

Lemma HEMTStructure_init_default (st : string) :
  HEMTStructure_init st = Return (default_structure st).
Proof.
  unfold HEMTStructure_init, _build_default_structure, default_structure,
    default_layers, default_substrate_thickness; simpl substrate_type.
  destruct (String.eqb st "SiC"); destruct (String.eqb st "Si");
    destruct (String.eqb st "Sapphire"); destruct (String.eqb st "GaN");
    reflexivity.
Qed.

(** ** Positional insert *)

Section Insert.

Context {A : Type} (p : A -> bool).

Lemma next_index_found (before after : list A) (x : A) (i : nat) :
  Forall (fun a => p a = false) before -> p x = true ->
  next_index p i (before ++ x :: after) =
  Return (i + List.length before)%nat.
Proof.
  intros Hb Hx. revert i.
  induction Hb as [|b before Hpb _ IH]; intro i; simpl.
  - rewrite Hx. f_equal. lia.
  - rewrite Hpb, IH. f_equal. lia.
Qed.

Lemma next_index_absent (xs : list A) (i : nat) :
  Forall (fun a => p a = false) xs ->
  next_index p i xs = Raise (mk_exn StopIteration "").
Proof.
  intros H. revert i.
  induction H as [|x xs Hx _ IH]; intro i; simpl; [reflexivity|].
  now rewrite Hx.
Qed.

Lemma next_index_split (xs : list A) (i j : nat) :
  next_index p i xs = Return j ->
  exists before x after,
    xs = before ++ x :: after /\
    Forall (fun a => p a = false) before /\ p x = true /\
    j = (i + List.length before)%nat.
Proof.
  revert i. induction xs as [|a xs IH]; intro i; simpl; [discriminate|].
  destruct (p a) eqn:Ha.
  - intros [= <-]. exists [], a, xs. repeat split; auto; simpl; lia.
  - intros H. destruct (IH _ H) as (before & x & after & -> & Hb & Hx & ->).
    exists (a :: before), x, after. repeat split; auto; simpl; lia.
Qed.

Lemma insert_after_prefix (before after : list A) (a x : A) :
  Py.insert (S (List.length before)) x (before ++ a :: after) =
  before ++ a :: x :: after.
Proof.
  unfold Py.insert. induction before as [|b before IH]; simpl.
  - reflexivity.
  - f_equal. exact IH.
Qed.

End Insert.

Lemma back_barrier_layers_found thickness doping before anchor after :
  0 < thickness -> 0 <= doping ->
  Forall (fun l => is_channel l = false) before -> is_channel anchor = true ->
  back_barrier_layers thickness doping (before ++ anchor :: after) =
  Return (before ++ anchor :: back_barrier thickness doping :: after).
Proof.
  intros Ht Hd Hb Ha. unfold back_barrier_layers.
  rewrite (next_index_found is_channel before after anchor 0 Hb Ha); simpl.
  rewrite (Layer_new_ok _ _ _ _ _ _ _ Ht Hd); simpl.
  rewrite Nat.add_1_r. f_equal. apply insert_after_prefix.
Qed.

(** C2, as the code has it. For a new layer with valid parameters
    (thickness above 0, doping concentration at least 0), [add_back_barrier]
    on a stack whose first channel-type layer is [anchor] returns the stack
    with the new layer immediately after [anchor], every other layer in its
    place and order, one layer longer.  On a stack with no channel-type
    layer it raises [StopIteration], whatever the parameters. *)
Theorem add_back_barrier_inserts_after_first_channel :
  forall thickness doping self,
    (forall before anchor after,
        0 < thickness -> 0 <= doping ->
        layers (hemt self) = before ++ anchor :: after ->
        Forall (fun l => is_channel l = false) before ->
        is_channel anchor = true ->
        exists self',
          add_back_barrier thickness doping self = Return self' /\
          layers (hemt self') =
            before ++ anchor :: back_barrier thickness doping :: after /\
          List.length (layers (hemt self')) =
            S (List.length (layers (hemt self)))) /\
    (Forall (fun l => is_channel l = false) (layers (hemt self)) ->
     add_back_barrier thickness doping self =
     Raise (mk_exn StopIteration "")).
Proof.
  intros thickness doping self. split.
  - intros before anchor after Ht Hd Hl Hb Ha.
    unfold add_back_barrier. rewrite Hl.
    rewrite (back_barrier_layers_found _ _ _ _ _ Ht Hd Hb Ha); simpl.
    eexists; split; [reflexivity|]; simpl. split; [reflexivity|].
    rewrite !length_app; simpl. lia.
  - intros H. unfold add_back_barrier, back_barrier_layers.
    now rewrite (next_index_absent is_channel _ 0 H).
Qed.

Lemma add_back_barrier_inserts_after_first_channel_witness :
  (exists self',
      add_back_barrier default_back_barrier_thickness
        default_back_barrier_doping default_advanced = Return self' /\
      layers (hemt self') =
        firstn 4 (default_layers "SiC") ++
        nth 4 (default_layers "SiC") second_substrate ::
        back_barrier default_back_barrier_thickness
          default_back_barrier_doping ::
        skipn 5 (default_layers "SiC") /\
      List.length (layers (hemt self')) =
        S (List.length (layers (hemt default_advanced)))) /\
  add_back_barrier default_back_barrier_thickness default_back_barrier_doping
    without_channel = Raise (mk_exn StopIteration "").
Proof.
  split.
  - apply (proj1 (add_back_barrier_inserts_after_first_channel
                    default_back_barrier_thickness
                    default_back_barrier_doping default_advanced)).
    + reflexivity.
    + vm_compute. intro H. discriminate H.
    + reflexivity.
    + repeat constructor.
    + reflexivity.
  - apply (proj2 (add_back_barrier_inserts_after_first_channel
                    default_back_barrier_thickness
                    default_back_barrier_doping without_channel)).
    repeat constructor.
Defined.

(** C2 fails as stated: on a stack with no channel-type layer the exception
    raised is [StopIteration], which is not a [LookupError]. *)
Lemma add_back_barrier_absent_anchor_not_LookupError :
  add_back_barrier default_back_barrier_thickness default_back_barrier_doping
    without_channel = Raise (mk_exn StopIteration "") /\
  isinstance (mk_exn StopIteration "") LookupError = false /\
  ~ raises (add_back_barrier default_back_barrier_thickness
              default_back_barrier_doping without_channel) LookupError.
Proof.
  split; [reflexivity|]. split; [reflexivity|].
  intros [e [H1 H2]]. injection H1 as <-. discriminate H2.
Qed.

(** ** The substrate invariant *)

Lemma substrate_ok_spec (ls : list Layer.t) :
  substrate_ok ls = true <-> substrate_invariant ls.
Proof.
  unfold substrate_ok, substrate_invariant. rewrite forallb_forall. split.
  - intros H. destruct ls as [|x t]; simpl in *.
    + split; [lia|]. intros [|i] layer Hn; discriminate Hn.
    + assert (Hf : filter is_substrate t = []).
      { induction t as [|y t IH]; simpl; [reflexivity|].
        rewrite (proj1 (negb_true_iff _) (H y (or_introl eq_refl))).
        apply IH. intros z Hz. apply H. now right. }
      split.
      * rewrite Hf. destruct (is_substrate x); simpl; lia.
      * intros [|i] layer Hn Hs; [reflexivity|]. simpl in Hn.
        apply nth_error_In in Hn. apply H in Hn.
        rewrite Hs in Hn. discriminate Hn.
  - intros [_ H] layer Hin. destruct ls as [|x t]; simpl in Hin; [easy|].
    apply In_nth_error in Hin. destruct Hin as [i Hi].
    destruct (is_substrate layer) eqn:Hs; [|reflexivity].
    specialize (H (S i) layer Hi Hs). discriminate H.
Qed.

Lemma substrate_ok_append (ls : list Layer.t) (layer : Layer.t) :
  substrate_ok ls = true ->
  substrate_ok (ls ++ [layer]) = true <->
  ls = [] \/ is_substrate layer = false.
Proof.
  unfold substrate_ok. intros H. destruct ls as [|x t]; simpl in *.
  - split; auto.
  - rewrite forallb_app, H; simpl.
    rewrite andb_true_r, negb_true_iff. split; [now right|].
    intros [Habs | Hs]; [discriminate Habs | exact Hs].
Qed.

Lemma substrate_ok_back_barrier thickness doping ls ls' :
  substrate_ok ls = true ->
  back_barrier_layers thickness doping ls = Return ls' ->
  substrate_ok ls' = true.
Proof.
  unfold back_barrier_layers. intros Hok H.
  destruct (next_index is_channel 0 ls) as [i|e] eqn:Hi; [|discriminate H].
  simpl in H.
  destruct (Layer.new "BackBarrier" "AlGaN" thickness BUFFER (Some "p")
              doping _) as [bb|e] eqn:Hbb; [|discriminate H].
  simpl in H. injection H as <-.
  assert (Hty : is_substrate bb = false).
  { unfold Layer.new in Hbb.
    destruct (Layer.post_init _); [|discriminate Hbb].
    simpl in Hbb. injection Hbb as <-. reflexivity. }
  destruct (next_index_split _ _ _ _ Hi)
    as (before & anchor & after & -> & _ & _ & ->).
  simpl. rewrite Nat.add_1_r, insert_after_prefix.
  unfold substrate_ok in *.
  destruct before as [|b before]; simpl in *.
  - now rewrite Hty.
  - rewrite forallb_app in *. simpl in *.
    apply andb_true_iff in Hok. destruct Hok as [-> Hok].
    apply andb_true_iff in Hok. destruct Hok as [-> ->].
    now rewrite Hty.
Qed.

(** C3, as the code has it. The structure built by the constructor
    satisfies the substrate invariant (at most one substrate-type layer, and
    only at the first position).  On a stack that satisfies it, [add_layer]
    keeps it exactly when the stack is empty or the appended layer is not of
    substrate type; [add_back_barrier], when it returns, always keeps it. *)
Theorem substrate_invariant_preservation :
  (forall st,
      exists self,
        HEMTStructure_init st = Return self /\
        substrate_invariant (layers self)) /\
  (forall layer self,
      substrate_invariant (layers self) ->
      (substrate_invariant (layers (add_layer layer self)) <->
       layers self = [] \/ is_substrate layer = false)) /\
  (forall thickness doping self self',
      substrate_invariant (layers (hemt self)) ->
      add_back_barrier thickness doping self = Return self' ->
      substrate_invariant (layers (hemt self'))).
Proof.
  split; [|split].
  - intros st. exists (default_structure st).
    split; [apply HEMTStructure_init_default|]. apply substrate_ok_spec.
    unfold substrate_ok, default_structure, default_layers, layers.
    destruct (String.eqb st "GaN"); reflexivity.
  - intros layer self H. apply substrate_ok_spec in H.
    rewrite <- substrate_ok_spec. simpl. now apply substrate_ok_append.
  - intros thickness doping self self' H Hr.
    apply substrate_ok_spec in H. apply substrate_ok_spec.
    unfold add_back_barrier in Hr.
    destruct (back_barrier_layers thickness doping (layers (hemt self)))
      as [ls|e] eqn:Hls; [|discriminate Hr].
    simpl in Hr. injection Hr as <-. simpl.
    eapply substrate_ok_back_barrier; eassumption.
Qed.

Lemma substrate_invariant_preservation_witness :
  substrate_invariant (layers (default_structure "SiC")) /\
  substrate_invariant
    (layers (add_layer (back_barrier (of_int 50) 0)
               (default_structure "SiC"))) /\
  (forall self',
      add_back_barrier default_back_barrier_thickness
        default_back_barrier_doping default_advanced = Return self' ->
      substrate_invariant (layers (hemt self'))).
Proof.
  assert (Hinit : substrate_invariant (layers (default_structure "SiC")))
    by (apply substrate_ok_spec; reflexivity).
  split; [exact Hinit|]. split.
  - apply (proj1 (proj2 substrate_invariant_preservation)
             (back_barrier (of_int 50) 0) (default_structure "SiC") Hinit).
    right. reflexivity.
  - intros self'.
    apply (proj2 (proj2 substrate_invariant_preservation)
             default_back_barrier_thickness default_back_barrier_doping
             default_advanced self' Hinit).
Defined.

(** C3 fails as stated: appending a second substrate-type layer to the
    default structure, which [add_layer] accepts, gives a stack with two
    substrate-type layers, one of them last. *)
Lemma add_layer_second_substrate_breaks_invariant :
  HEMTStructure_init "SiC" = Return (default_structure "SiC") /\
  Layer.new "Substrate2" "Si" (of_int 525000) SUBSTRATE None 0 None =
  Return second_substrate /\
  substrate_invariant (layers (default_structure "SiC")) /\
  List.length
    (filter is_substrate
       (layers (add_layer second_substrate (default_structure "SiC")))) =
  2%nat /\
  ~ substrate_invariant
      (layers (add_layer second_substrate (default_structure "SiC"))).
Proof.
  split; [reflexivity|]. split; [reflexivity|].
  split; [apply substrate_ok_spec; reflexivity|].
  split; [reflexivity|].
  intros H. apply substrate_ok_spec in H. discriminate H.
Qed.

(** ** Thickness sums *)




(** ** Layer boundaries *)

Lemma boundaries_loop_scan (todo : list Layer.t) (acc : list num) (z : num) :
  boundaries_loop todo acc z =
  acc ++ scan z (map Layer.thickness
                   (filter (fun layer => negb (is_substrate layer)) todo)).
Proof.
  revert acc z. induction todo as [|layer rest IH]; intros acc z; simpl.
  - now rewrite app_nil_r.
  - destruct (is_substrate layer); simpl.
    + apply IH.
    + rewrite IH, <- app_assoc. reflexivity.
Qed.

Lemma boundaries_scan (self : HEMTStructure) :
  get_layer_boundaries self = 0 :: scan 0 (epi_thicknesses_top_down self).
Proof.
  unfold get_layer_boundaries. now rewrite boundaries_loop_scan.
Qed.

Lemma scan_length (ts : list num) (z : num) :
  List.length (scan z ts) = List.length ts.
Proof.
  revert z. induction ts as [|t ts IH]; intro z; simpl; [reflexivity|].
  now rewrite IH.
Qed.

Lemma scan_prefix_sums (ts : list num) (z : num) :
  scan z ts =
  map (fun k => z + Py.sum (firstn k ts)) (seq 1 (List.length ts)).
Proof.
  revert z. induction ts as [|t ts IH]; intro z; [reflexivity|].
  cbn [scan List.length seq map firstn]. f_equal.
  - rewrite sum_cons, sum_nil. ring.
  - rewrite IH, <- (seq_shift (List.length ts) 1), map_map.
    apply map_ext. intro k.
    cbn [firstn]. rewrite sum_cons. ring.
Qed.

Lemma running_sums_scan (ts : list num) : running_sums ts = 0 :: scan 0 ts.
Proof.
  unfold running_sums. cbn [seq map firstn]. f_equal.
  rewrite scan_prefix_sums. apply map_ext. intro k. ring.
Qed.

Lemma scan_non_decreasing (ts : list num) (z : num) :
  Forall (fun t => 0 <= t) ts -> non_decreasing (z :: scan z ts).
Proof.
  intros H. revert z. induction H as [|t ts Ht _ IH]; intros z i Hi.
  - simpl in Hi. lia.
  - destruct i as [|i].
    + simpl. rewrite <- (Qcplus_0_r z) at 1.
      apply Qcplus_le_compat; [apply Qcle_refl | exact Ht].
    + apply (IH (z + t) i). simpl in *. lia.
Qed.


Lemma epi_top_down_length (self : HEMTStructure) :
  List.length (epi_thicknesses_top_down self) =
  List.length (filter (fun layer => negb (is_substrate layer)) (layers self)).
Proof.
  unfold epi_thicknesses_top_down.
  now rewrite length_map, filter_rev, length_rev.
Qed.


(** C5. [get_layer_boundaries] returns one more value than there are
    non-substrate layers, starting with 0; it is the sequence of running
    sums of the non-substrate thicknesses taken from the last layer to the
    first; and when every layer has a positive thickness it is
    non-decreasing. *)
Theorem layer_boundaries_running_sums :
  forall self,
    List.length (get_layer_boundaries self) =
      S (List.length
           (filter (fun layer => negb (is_substrate layer)) (layers self))) /\
    nth_error (get_layer_boundaries self) 0 = Some 0 /\
    get_layer_boundaries self =
      running_sums (epi_thicknesses_top_down self) /\
    (Forall (fun layer => 0 < Layer.thickness layer) (layers self) ->
     non_decreasing (get_layer_boundaries self)).
Proof.
  intro self. rewrite boundaries_scan. repeat split.
  - simpl. now rewrite scan_length, epi_top_down_length.
  - now rewrite running_sums_scan.
  - intro H. apply scan_non_decreasing.
    unfold epi_thicknesses_top_down.
    apply Forall_forall. intros t Ht.
    apply in_map_iff in Ht. destruct Ht as (layer & <- & Hin).
    apply filter_In in Hin. destruct Hin as [Hin _].
    apply in_rev in Hin. rewrite Forall_forall in H.
    apply Qclt_le_weak. now apply H.
Qed.

Lemma layer_boundaries_running_sums_witness :
  non_decreasing (get_layer_boundaries (default_structure "SiC")).
Proof.
  apply (layer_boundaries_running_sums (default_structure "SiC")).
  repeat constructor.
Defined.



(** ** 2DEG position *)

Lemma is_barrier_not_cap (layer : Layer.t) :
  is_barrier layer = true -> is_cap layer = false.
Proof.
  unfold is_barrier, is_cap. now destruct (Layer.layer_type layer).
Qed.

(** Walking over layers none of which is a barrier adds the cap
    thicknesses and nothing else. *)
Lemma two_deg_loop_no_barrier (todo : list Layer.t) (z : num) :
  Forall (fun layer => is_barrier layer = false) todo ->
  two_deg_loop todo z =
  z + Py.sum (map Layer.thickness (filter is_cap todo)).
Proof.
  intros H. revert z. induction H as [|layer rest Hb _ IH]; intro z; simpl.
  - rewrite sum_nil. ring.
  - fold (is_cap layer). fold (is_barrier layer). rewrite Hb.
    destruct (is_cap layer); simpl; rewrite IH.
    + rewrite sum_cons. ring.
    + reflexivity.
Qed.

(** The walk ends at the first barrier met: what lies after it in the walk
    has no effect. *)
Lemma two_deg_loop_barrier (above below : list Layer.t) (barrier : Layer.t)
    (z : num) :
  Forall (fun layer => is_barrier layer = false) above ->
  is_barrier barrier = true ->
  two_deg_loop (above ++ barrier :: below) z =
  z + Py.sum (map Layer.thickness (filter is_cap above)) +
  Layer.thickness barrier + of_frac 15 10.
Proof.
  intros H Hb. revert z. induction H as [|layer rest Hl _ IH]; intro z; simpl.
  - fold (is_cap barrier). fold (is_barrier barrier).
    rewrite (is_barrier_not_cap _ Hb), Hb, sum_nil. ring.
  - fold (is_cap layer). fold (is_barrier layer). rewrite Hl.
    destruct (is_cap layer); simpl; rewrite IH.
    + rewrite sum_cons. ring.
    + reflexivity.
Qed.

Lemma cap_sum_rev (ls : list Layer.t) :
  Py.sum (map Layer.thickness (filter is_cap (rev ls))) =
  Py.sum (map Layer.thickness (filter is_cap ls)).
Proof. now rewrite filter_rev, map_rev, sum_rev. Qed.

(** C4. [get_2deg_position] walks the stack from the last layer to the
    first.  When [barrier] is the last barrier-type layer of the stack (the
    first one met), the result is the thickness of the cap-type layers above
    it, plus its own thickness, plus 1.5; the layers below it and the layers
    of other types above it contribute nothing.  Without any barrier-type
    layer the result is the total thickness of the cap-type layers.  The
    structure built by the constructor (cap 2 nm on barrier 15 nm) gives
    18.5. *)
Theorem two_deg_position_walk :
  (forall self below barrier above,
      layers self = below ++ barrier :: above ->
      is_barrier barrier = true ->
      Forall (fun layer => is_barrier layer = false) above ->
      get_2deg_position self =
      Py.sum (map Layer.thickness (filter is_cap above)) +
      Layer.thickness barrier + of_frac 15 10) /\
  (forall self,
      Forall (fun layer => is_barrier layer = false) (layers self) ->
      get_2deg_position self =
      Py.sum (map Layer.thickness (filter is_cap (layers self)))) /\
  (forall st,
      exists self,
        HEMTStructure_init st = Return self /\
        get_2deg_position self = of_frac 185 10).
Proof.
  split; [|split].
  - intros self below barrier above Hl Hb Ha. unfold get_2deg_position.
    rewrite Hl, rev_app_distr. simpl. rewrite <- app_assoc. simpl.
    rewrite two_deg_loop_barrier.
    + rewrite cap_sum_rev. ring.
    + apply Forall_forall. intros l Hin. apply in_rev in Hin.
      rewrite Forall_forall in Ha. now apply Ha.
    + exact Hb.
  - intros self H. unfold get_2deg_position.
    rewrite two_deg_loop_no_barrier.
    + rewrite cap_sum_rev. ring.
    + apply Forall_forall. intros l Hin. apply in_rev in Hin.
      rewrite Forall_forall in H. now apply H.
  - intros st. exists (default_structure st).
    split; [apply HEMTStructure_init_default|]. apply Qc_is_canon.
    unfold get_2deg_position, default_structure, default_layers, layers.
    destruct (String.eqb st "GaN"); reflexivity.
Qed.

Lemma two_deg_position_walk_witness :
  get_2deg_position (default_structure "SiC") =
    Py.sum (map Layer.thickness
              (filter is_cap (skipn 7 (default_layers "SiC")))) +
    of_int 15 + of_frac 15 10 /\
  get_2deg_position (hemt without_channel) =
    Py.sum (map Layer.thickness
              (filter is_cap (layers (hemt without_channel)))) /\
  (exists self,
      HEMTStructure_init "SiC" = Return self /\
      get_2deg_position self = of_frac 185 10).
Proof.
  split; [|split].
  - apply (proj1 two_deg_position_walk (default_structure "SiC")
             (firstn 6 (default_layers "SiC"))
             (Layer.mk "Barrier" "InAlN" (of_int 15) BARRIER (Some "n")
                (of_int (5 * 10 ^ 18))
                (Some [("In", of_frac 17 100); ("Al", of_frac 83 100)]))
             (skipn 7 (default_layers "SiC"))).
    + reflexivity.
    + reflexivity.
    + repeat constructor.
  - apply (proj1 (proj2 two_deg_position_walk) (hemt without_channel)).
    repeat constructor.
  - apply (proj2 (proj2 two_deg_position_walk) "SiC").
Defined.

(** ** Interchange document: reading back what was exported *)

Lemma LayerType_of_value_value (t : LayerType) :
  LayerType_of_value (value t) = Some t.
Proof. destruct t; reflexivity. Qed.

Lemma all_some_map {A B} (f : A -> option B) (g : B -> A) (xs : list B) :
  (forall x, f (g x) = Some x) ->
  all_some (map f (map g xs)) = Some xs.
Proof.
  intros H. induction xs as [|x xs IH]; simpl; [reflexivity|].
  now rewrite H, IH.
Qed.

Lemma as_num_dict_json_num_dict (d : list (string * num)) :
  as_num_dict (json_num_dict d) = Some d.
Proof.
  unfold as_num_dict, json_num_dict. rewrite map_map. simpl.
  induction d as [|[k v] d IH]; simpl; [reflexivity|].
  now rewrite IH.
Qed.

Lemma layer_of_json_layer_dict (layer : Layer.t) :
  layer_of_json (layer_dict layer) = Some layer.
Proof.
  destruct layer as [name material thickness layer_type doping_type
                       doping_concentration composition].
  unfold layer_of_json, layer_dict.
  cbn [field lookup String.eqb Ascii.eqb Bool.eqb obind as_str as_num
         Layer.name Layer.material Layer.thickness Layer.layer_type
         Layer.doping_type Layer.doping_concentration Layer.composition].
  rewrite LayerType_of_value_value. cbn [obind].
  destruct doping_type as [s|]; cbn [json_opt as_opt as_str obind];
    (destruct composition as [d|]; cbn [json_opt as_opt obind];
     [ unfold as_opt;
       change (json_num_dict d)
         with (JDict (map (fun kv => (fst kv, JNum (snd kv))) d));
       cbv beta iota;
       change (JDict (map (fun kv => (fst kv, JNum (snd kv))) d))
         with (json_num_dict d);
       now rewrite as_num_dict_json_num_dict
     | reflexivity ]).
Qed.

Lemma contact_of_json_contact_dict (contact : Contact.t) :
  contact_of_json (contact_dict contact) = Some contact.
Proof.
  destruct contact as [name contact_type material [x_start x_end]
                         work_function contact_resistance].
  unfold contact_of_json, contact_dict.
  destruct work_function, contact_resistance; reflexivity.
Qed.

Lemma records_of_json_export (self : HEMTStructure) :
  records_of_json (export_python_mesh self) =
  Some (layers self, contacts self).
Proof.
  unfold records_of_json, export_python_mesh.
  cbn [field lookup String.eqb Ascii.eqb Bool.eqb obind as_list].
  rewrite (all_some_map layer_of_json layer_dict _ layer_of_json_layer_dict).
  cbn [obind].
  rewrite (all_some_map contact_of_json contact_dict _
             contact_of_json_contact_dict).
  reflexivity.
Qed.

(** C7. The exported document holds, under the keys [layers] and
    [contacts], one record per Layer and per Contact in stack order, each
    with every field of the record; an absent optional field is present
    with the null marker; no derived geometry is stored.  Reading the
    records back gives the originals field for field, so two structures
    with the same document have the same layers and contacts. *)
Theorem export_python_mesh_round_trip :
  forall self,
    records_of_json (export_python_mesh self) =
      Some (layers self, contacts self) /\
    keys (export_python_mesh self) =
      ["substrate_type"; "dimensions"; "layers"; "contacts"] /\
    field "layers" (export_python_mesh self) =
      Some (JList (map layer_dict (layers self))) /\
    field "contacts" (export_python_mesh self) =
      Some (JList (map contact_dict (contacts self))) /\
    (forall layer,
        layer_of_json (layer_dict layer) = Some layer /\
        keys (layer_dict layer) =
          ["name"; "material"; "thickness"; "type"; "doping_type";
           "doping_concentration"; "composition"] /\
        (Layer.doping_type layer = None ->
         field "doping_type" (layer_dict layer) = Some JNull) /\
        (Layer.composition layer = None ->
         field "composition" (layer_dict layer) = Some JNull)) /\
    (forall contact,
        contact_of_json (contact_dict contact) = Some contact /\
        keys (contact_dict contact) =
          ["name"; "type"; "material"; "position"; "work_function";
           "contact_resistance"] /\
        (Contact.work_function contact = None ->
         field "work_function" (contact_dict contact) = Some JNull) /\
        (Contact.contact_resistance contact = None ->
         field "contact_resistance" (contact_dict contact) = Some JNull)) /\
    (forall other,
        export_python_mesh other = export_python_mesh self ->
        layers other = layers self /\ contacts other = contacts self).
Proof.
  intro self. split; [apply records_of_json_export|].
  split; [reflexivity|]. split; [reflexivity|]. split; [reflexivity|].
  split; [|split].
  - intro layer. split; [apply layer_of_json_layer_dict|].
    split; [reflexivity|]. split; intro H; simpl; now rewrite H.
  - intro contact. split; [apply contact_of_json_contact_dict|].
    split; [reflexivity|]. split; intro H; simpl; now rewrite H.
  - intros other H.
    pose proof (records_of_json_export other) as Ho.
    rewrite H, records_of_json_export in Ho.
    injection Ho as Hl Hc. now split.
Qed.

Lemma export_python_mesh_round_trip_witness :
  field "doping_type"
    (layer_dict (Layer.mk "Spacer" "AlN" (of_int 1) SPACER None 0 None)) =
    Some JNull /\
  field "composition"
    (layer_dict (Layer.mk "Spacer" "AlN" (of_int 1) SPACER None 0 None)) =
    Some JNull /\
  field "work_function"
    (contact_dict
       (Contact.mk "Source" "ohmic" "Ti/Al/Ni/Au" (of_int 0, of_int 1) None
          None)) = Some JNull /\
  field "contact_resistance"
    (contact_dict
       (Contact.mk "Source" "ohmic" "Ti/Al/Ni/Au" (of_int 0, of_int 1) None
          None)) = Some JNull /\
  layers (default_structure "SiC") = layers (default_structure "SiC") /\
  contacts (default_structure "SiC") = contacts (default_structure "SiC").
Proof.
  pose proof (export_python_mesh_round_trip (default_structure "SiC"))
    as (_ & _ & _ & _ & Hlayer & Hcontact & Hinj).
  destruct (Hlayer (Layer.mk "Spacer" "AlN" (of_int 1) SPACER None 0 None))
    as (_ & _ & Hd & Hc).
  destruct (Hcontact
              (Contact.mk "Source" "ohmic" "Ti/Al/Ni/Au" (of_int 0, of_int 1)
                 None None)) as (_ & _ & Hw & Hr).
  split; [apply Hd; reflexivity|]. split; [apply Hc; reflexivity|].
  split; [apply Hw; reflexivity|]. split; [apply Hr; reflexivity|].
  apply (Hinj (default_structure "SiC")). reflexivity.
Defined.

(** ** TCAD script: doping directives *)






(** ** Scientific notation *)

Section Scientific.

Local Open Scope Z_scope.

Variables n d : Z.
Hypothesis n_pos : 0 < n.
Hypothesis d_pos : 0 < d.











End Scientific.

(** *** The printed digits *)










(** *** The number printed *)

Section Value.

Local Open Scope Q_scope.










End Value.




(** The concentrations of the default stack as they are printed. *)
Example format_2e_default_concentrations :
  map format_2e [of_int (10 ^ 16); of_int (5 * 10 ^ 18); of_int (2 * 10 ^ 19)] =
  ["1.00e+16"; "5.00e+18"; "2.00e+19"].
Proof. vm_compute. reflexivity. Qed.

(** The default SiC stack has four doped layers: Buffer2, Channel, Barrier
    and Cap, at positions 3, 4, 6 and 7. *)
Example sentaurus_doping_default :
  sentaurus_doping (default_structure "SiC") =
  [("# Doping profiles" ++ newline)%string;
   directive_text 3 "Buffer2" "donor" "1.00e+16";
   directive_text 4 "Channel" "acceptor" "1.00e+16";
   directive_text 6 "Barrier" "donor" "5.00e+18";
   directive_text 7 "Cap" "donor" "2.00e+19"].
Proof. vm_compute. reflexivity. Qed.

(** * Further properties of the code *)

(** ** Layer construction: when it returns and what it raises *)



(** X2. The thickness is checked first: with a thickness of at most 0 the
    exception carries the thickness message with the layer's name, also
    when the doping concentration is negative as well; the doping message
    appears only for a positive thickness. *)
Theorem Layer_new_first_failure :
  forall name material thickness layer_type doping_type
         doping_concentration composition,
    let built := Layer.new name material thickness layer_type doping_type
                   doping_concentration composition in
    (thickness <= 0 ->
     built =
     Raise (mk_exn ValueError
              ("Layer thickness must be positive: " ++ name)%string)) /\
    (0 < thickness -> doping_concentration < 0 ->
     built =
     Raise (mk_exn ValueError
              ("Doping concentration cannot be negative: " ++ name)%string)).
Proof.
  intros name material thickness layer_type doping_type doping_concentration
    composition built0. subst built0.
  unfold Layer.new, Layer.post_init; simpl. split.
  - intro Ht. apply leb_le in Ht. now rewrite Ht.
  - intros Ht Hd. apply leb_gt in Ht. apply ltb_lt in Hd.
    now rewrite Ht, Hd.
Qed.

Lemma Layer_new_first_failure_witness :
  Layer.new "Cap" "GaN" 0 CAP None (of_int (-1)) None =
  Raise (mk_exn ValueError "Layer thickness must be positive: Cap") /\
  Layer.new "Cap" "GaN" (of_int 2) CAP None (of_int (-1)) None =
  Raise (mk_exn ValueError "Doping concentration cannot be negative: Cap").
Proof.
  split.
  - apply (proj1 (Layer_new_first_failure "Cap" "GaN" 0 CAP None
                    (of_int (-1)) None)).
    vm_compute. intro H. discriminate H.
  - apply (proj2 (Layer_new_first_failure "Cap" "GaN" (of_int 2) CAP None
                    (of_int (-1)) None)); reflexivity.
Defined.

(** ** The constructor and the default contacts *)

Lemma getitem_absent (d : list (string * num)) (key : string) :
  ~ In key (map fst d) -> getitem d key = Raise (mk_exn KeyError key).
Proof.
  induction d as [|[k v] d IH]; simpl; intro H; [reflexivity|].
  destruct (String.eqb_spec k key) as [->|_].
  - exfalso. apply H. now left.
  - apply IH. intro Hin. apply H. now right.
Qed.

Lemma getitem_present (d : list (string * num)) (key : string) :
  In key (map fst d) -> exists v, getitem d key = Return v /\ In (key, v) d.
Proof.
  induction d as [|[k v] d IH]; simpl; intro H; [easy|].
  destruct (String.eqb_spec k key) as [->|Hne].
  - exists v. split; [reflexivity | now left].
  - destruct H as [H | H]; [easy|].
    destruct (IH H) as (w & Hw & Hin). exists w. split; [exact Hw | now right].
Qed.

(** X3. The constructor accepts every substrate name, known or not.  The
    stack it builds starts with a substrate layer of that material, has no
    other substrate layer, holds only valid layers, and has eight layers,
    or seven for ["GaN"] (no nucleation layer).  A name other than
    ["SiC"], ["Si"] and ["Sapphire"] gets the thickness of a GaN
    substrate, 300000 nm. *)
Theorem HEMTStructure_init_any_substrate :
  forall st,
  exists self substrate epi,
    HEMTStructure_init st = Return self /\
    substrate_type self = st /\
    layers self = substrate :: epi /\
    is_substrate substrate = true /\
    Layer.material substrate = st /\
    Forall (fun layer => is_substrate layer = false) epi /\
    Forall valid_layer (layers self) /\
    List.length (layers self) = (if String.eqb st "GaN" then 7 else 8)%nat /\
    (st <> "SiC" -> st <> "Si" -> st <> "Sapphire" ->
     Layer.thickness substrate = of_int 300000).
Proof.
  intro st. rewrite HEMTStructure_init_default.
  eexists; eexists; eexists. split; [reflexivity|].
  split; [reflexivity|]. split; [reflexivity|].
  split; [reflexivity|]. split; [reflexivity|].
  split; [destruct (String.eqb st "GaN"); repeat constructor|].
  split; [|split].
  - unfold default_structure, default_layers, layers.
    constructor.
    + split; [|vm_compute; intro H; discriminate H].
      unfold default_substrate_thickness; cbn [Layer.thickness].
      destruct (String.eqb st "SiC"); [reflexivity|].
      destruct (String.eqb st "Si"); [reflexivity|].
      destruct (String.eqb st "Sapphire"); reflexivity.
    + destruct (String.eqb st "GaN"); cbn [negb app];
        repeat constructor; vm_compute; intro H; discriminate H.
  - unfold default_structure, default_layers, layers.
    destruct (String.eqb st "GaN"); reflexivity.
  - intros H1 H2 H3. cbn [Layer.thickness].
    unfold default_substrate_thickness.
    apply String.eqb_neq in H1, H2, H3. now rewrite H1, H2, H3.
Qed.

Lemma HEMTStructure_init_any_substrate_witness :
  exists self substrate epi,
    HEMTStructure_init "Diamond" = Return self /\
    layers self = substrate :: epi /\
    List.length (layers self) = 8%nat /\
    Layer.thickness substrate = of_int 300000.
Proof.
  destruct (HEMTStructure_init_any_substrate "Diamond")
    as (self & substrate & epi & H1 & _ & H3 & _ & _ & _ & _ & H8 & H9).
  exists self, substrate, epi.
  split; [exact H1|]. split; [exact H3|]. split; [exact H8|].
  apply H9; intro H; discriminate H.
Defined.

(** X4. [_define_contacts] appends a source, a drain and a gate contact after
    the contacts already there and leaves the layers alone.  The drain
    spans 1 um from [source_drain_spacing]; the gate spans [gate_length]
    from 1.5 um.  When either dimension is missing the call raises
    [KeyError].  For the structure of the constructor the positions are
    (0, 1), (4, 5) and (1.5, 1.75), each with its start before its end. *)
Theorem define_contacts_positions :
  (forall self spacing gate_length,
      getitem (device_dimensions self) "source_drain_spacing" =
        Return spacing ->
      getitem (device_dimensions self) "gate_length" = Return gate_length ->
      _define_contacts self =
      Return
        (mk_HEMTStructure (substrate_type self) (layers self)
           (contacts self ++
            [Contact.mk "Source" "ohmic" "Ti/Al/Ni/Au" (of_int 0, of_int 1)
               None (Some (of_frac 2 10));
             Contact.mk "Drain" "ohmic" "Ti/Al/Ni/Au"
               (spacing, spacing + of_int 1) None (Some (of_frac 2 10));
             Contact.mk "Gate" "schottky" "Ni/Au"
               (of_frac 15 10, of_frac 15 10 + gate_length)
               (Some (of_frac 51 10)) None])
           (device_dimensions self))) /\
  (forall self,
      ~ In "source_drain_spacing" (map fst (device_dimensions self)) \/
      ~ In "gate_length" (map fst (device_dimensions self)) ->
      raises (_define_contacts self) KeyError) /\
  (forall st,
    exists self,
      HEMTStructure_init st = Return self /\
      map Contact.position (contacts self) =
        [(of_int 0, of_int 1); (of_int 4, of_int 5);
         (of_frac 15 10, of_frac 175 100)] /\
      Forall (fun c => fst (Contact.position c) < snd (Contact.position c))
        (contacts self)).
Proof.
  split; [|split].
  - intros self spacing gate_length Hs Hg.
    unfold _define_contacts, Contact.new. simpl.
    rewrite Hs. simpl. rewrite Hg. simpl.
    unfold add_contact; simpl. rewrite <- !app_assoc. reflexivity.
  - intros self H. unfold _define_contacts, Contact.new, raises. simpl.
    destruct (in_dec string_dec "source_drain_spacing"
                (map fst (device_dimensions self))) as [Hin|Hout].
    + destruct H as [H|H]; [easy|].
      destruct (getitem_present _ _ Hin) as (v & -> & _). simpl.
      rewrite (getitem_absent _ _ H). simpl.
      eexists; split; reflexivity.
    + rewrite (getitem_absent _ _ Hout). simpl.
      eexists; split; reflexivity.
  - intro st. exists (default_structure st).
    split; [apply HEMTStructure_init_default|]. split.
    + unfold default_structure, default_contacts, contacts. cbn [map].
      cbn [Contact.position].
      repeat f_equal; apply Qc_is_canon; reflexivity.
    + unfold default_structure, default_contacts, contacts.
      repeat constructor.
Qed.

Lemma define_contacts_positions_witness :
  _define_contacts
    (mk_HEMTStructure "SiC" [] (contacts (default_structure "SiC"))
       default_dimensions) =
  Return
    (mk_HEMTStructure "SiC" []
       (contacts (default_structure "SiC") ++
        [Contact.mk "Source" "ohmic" "Ti/Al/Ni/Au" (of_int 0, of_int 1)
           None (Some (of_frac 2 10));
         Contact.mk "Drain" "ohmic" "Ti/Al/Ni/Au"
           (of_int 4, of_int 4 + of_int 1) None (Some (of_frac 2 10));
         Contact.mk "Gate" "schottky" "Ni/Au"
           (of_frac 15 10, of_frac 15 10 + of_frac 25 100)
           (Some (of_frac 51 10)) None])
       default_dimensions) /\
  raises (_define_contacts (mk_HEMTStructure "SiC" [] [] [])) KeyError.
Proof.
  split.
  - apply (proj1 define_contacts_positions
             (mk_HEMTStructure "SiC" [] (contacts (default_structure "SiC"))
                default_dimensions) (of_int 4) (of_frac 25 100));
      reflexivity.
  - apply (proj1 (proj2 define_contacts_positions)
             (mk_HEMTStructure "SiC" [] [] [])).
    left. intros [].
Defined.

(** ** Adding a layer on top *)








(** ** Thickness sums with any number of substrate layers *)



(** ** Order facts on numbers *)


Lemma num_le_add (a b c d : num) : a <= b -> c <= d -> a + c <= b + d.
Proof. intros. now apply Qcplus_le_compat. Qed.


(** ** Boundaries: steps and strict growth *)




(** ** 2DEG position: bounds *)






(** ** The back barrier: when it is added and what it changes *)









(** ** What every structure built through the interface satisfies *)





(** ** The interchange document determines the structure *)

Lemma map_injective_by_inverse {A B} (g : A -> B) (f : B -> option A)
    (xs ys : list A) :
  (forall x, f (g x) = Some x) -> map g xs = map g ys -> xs = ys.
Proof.
  intros Hfg. revert ys.
  induction xs as [|x xs IH]; intros [|y ys] H; simpl in H;
    try discriminate H; [reflexivity|].
  injection H as Hxy Hrest. f_equal; [|now apply IH].
  apply (f_equal f) in Hxy. rewrite !Hfg in Hxy. now injection Hxy.
Qed.

Lemma json_num_dict_injective (d1 d2 : list (string * num)) :
  json_num_dict d1 = json_num_dict d2 -> d1 = d2.
Proof.
  intro H. apply (f_equal as_num_dict) in H.
  rewrite !as_num_dict_json_num_dict in H. now injection H.
Qed.

(** X14. Two structures with the same interchange document are the same
    structure: the document fixes the substrate name, the dimensions, the
    layers and the contacts.  It holds nothing of the field plates and the
    passivation records of an extended structure: recording one leaves the
    document as it was. *)
Theorem export_python_mesh_injective :
  (forall self other,
      export_python_mesh self = export_python_mesh other -> self = other) /\
  (forall self name material position height,
      export_python_mesh
        (hemt (add_field_plate name material position height self)) =
      export_python_mesh (hemt self)) /\
  (forall self material thickness,
      export_python_mesh (hemt (add_passivation material thickness self)) =
      export_python_mesh (hemt self)).
Proof.
  split; [|split; reflexivity].
  intros [st1 ls1 cs1 d1] [st2 ls2 cs2 d2] H.
  unfold export_python_mesh in H. cbn [substrate_type device_dimensions
    layers contacts] in H.
  injection H as Hst Hd Hls Hcs.
  apply (f_equal JDict) in Hd. apply json_num_dict_injective in Hd.
  apply (map_injective_by_inverse layer_dict layer_of_json _ _
           layer_of_json_layer_dict) in Hls.
  apply (map_injective_by_inverse contact_dict contact_of_json _ _
           contact_of_json_contact_dict) in Hcs.
  now subst.
Qed.

Lemma export_python_mesh_injective_witness :
  default_structure "SiC" = default_structure "SiC".
Proof.
  apply (proj1 export_python_mesh_injective). reflexivity.
Defined.

(** X15. The members of [LayerType] have distinct values, so the ["type"]
    entry of an exported layer identifies the layer type. *)
Theorem LayerType_value_injective :
  forall a b, value a = value b -> a = b.
Proof.
  intros a b H. destruct a, b; try reflexivity; discriminate H.
Qed.

Lemma LayerType_value_injective_witness : CAP = CAP.
Proof. apply LayerType_value_injective. reflexivity. Defined.

(** ** TCAD script: the region records *)

Lemma regions_loop_from dims dl gw i todo z out :
  getitem dims "device_length" = Return dl ->
  getitem dims "gate_width" = Return gw ->
  regions_loop dims i todo z out = Return (out ++ regions_from dl gw i z todo).
Proof.
  intros Hl Hw. revert i z out.
  induction todo as [|layer rest IH]; intros i z out; simpl.
  - now rewrite app_nil_r.
  - destruct (is_substrate layer); simpl.
    + apply IH.
    + rewrite Hl; simpl. rewrite Hw; simpl.
      rewrite IH, <- app_assoc. reflexivity.
Qed.

Lemma regions_loop_no_epi dims i todo z out :
  Forall (fun layer => is_substrate layer = true) todo ->
  regions_loop dims i todo z out = Return out.
Proof.
  intros H. revert i. induction H as [|layer rest Hs _ IH]; intro i; simpl.
  - reflexivity.
  - rewrite Hs. simpl. apply IH.
Qed.

Lemma regions_loop_missing dims i todo z out :
  ~ In "device_length" (map fst dims) \/ ~ In "gate_width" (map fst dims) ->
  Exists (fun layer => is_substrate layer = false) todo ->
  raises (regions_loop dims i todo z out) KeyError.
Proof.
  intros Hmiss H. revert i.
  induction todo as [|layer rest IH]; intro i; [inversion H|].
  simpl. destruct (is_substrate layer) eqn:Hs; simpl.
  - apply IH. inversion H as [? ? Hh|? ? Ht]; subst; [congruence | exact Ht].
  - unfold raises.
    destruct (in_dec string_dec "device_length" (map fst dims)) as [Hin|Hout].
    + destruct Hmiss as [Hm|Hm]; [easy|].
      destruct (getitem_present _ _ Hin) as (v & -> & _). simpl.
      rewrite (getitem_absent _ _ Hm). simpl. eexists; split; reflexivity.
    + rewrite (getitem_absent _ _ Hout). simpl. eexists; split; reflexivity.
Qed.



Lemma regions_from_layers dl gw todo i z r :
  In r (regions_from dl gw i z todo) ->
  exists layer,
    (i <= region_index r)%nat /\
    nth_error todo (region_index r - i) = Some layer /\
    is_substrate layer = false /\
    region_name r = Layer.name layer /\
    region_material r = Layer.material layer /\
    region_length r = dl /\ region_width r = gw.
Proof.
  revert i z. induction todo as [|layer rest IH]; intros i z Hin;
    simpl in Hin; [easy|].
  destruct (is_substrate layer) eqn:Hs; simpl in Hin.
  - destruct (IH _ _ Hin) as (l & Hle & Hn & Hrest).
    exists l. split; [lia|]. split; [|exact Hrest].
    replace (region_index r - i)%nat with (S (region_index r - S i)) by lia.
    exact Hn.
  - destruct Hin as [<- | Hin].
    + exists layer. simpl. rewrite Nat.sub_diag. repeat split; auto.
    + destruct (IH _ _ Hin) as (l & Hle & Hn & Hrest).
      exists l. split; [lia|]. split; [|exact Hrest].
      replace (region_index r - i)%nat with (S (region_index r - S i)) by lia.
      exact Hn.
Qed.



(** X17. The region records are numbered from the top of the whole stack,
    substrate layers counted: [region_i] describes the layer at position
    [len - 1 - i] of the stack, a non-substrate layer, by its name and
    material (the doping directives are numbered from the bottom). *)
Theorem sentaurus_region_numbering :
  forall self regions r,
    sentaurus_regions self = Return regions ->
    In r regions ->
    exists layer,
      (region_index r < List.length (layers self))%nat /\
      nth_error (layers self)
        (List.length (layers self) - 1 - region_index r) = Some layer /\
      is_substrate layer = false /\
      region_name r = Layer.name layer /\
      region_material r = Layer.material layer.
Proof.
  intros self regions r Hret Hin. unfold sentaurus_regions in Hret.
  destruct (in_dec string_dec "device_length"
              (map fst (device_dimensions self))) as [Hl|Hl];
    [destruct (in_dec string_dec "gate_width"
                 (map fst (device_dimensions self))) as [Hw|Hw]|].
  - destruct (getitem_present _ _ Hl) as (dl & Hdl & _).
    destruct (getitem_present _ _ Hw) as (gw & Hgw & _).
    rewrite (regions_loop_from _ dl gw _ _ _ _ Hdl Hgw) in Hret.
    injection Hret as <-. simpl in Hin.
    destruct (regions_from_layers _ _ _ _ _ _ Hin)
      as (layer & _ & Hn & Hs & Hname & Hmat & _).
    rewrite Nat.sub_0_r in Hn.
    assert (Hlt : (region_index r < List.length (rev (layers self)))%nat)
      by (apply nth_error_Some; congruence).
    rewrite length_rev in Hlt.
    exists layer. split; [exact Hlt|]. split; [|now repeat split].
    rewrite nth_error_rev in Hn.
    apply Nat.ltb_lt in Hlt. rewrite Hlt in Hn.
    rewrite <- Hn. f_equal. lia.
  - destruct (Exists_dec (fun layer => is_substrate layer = false)
                (rev (layers self))) as [He|He].
    + intro l. destruct (is_substrate l); [right; discriminate | now left].
    + destruct (regions_loop_missing (device_dimensions self) 0 _ 0 []
                  (or_intror Hw) He) as (e & He' & _).
      rewrite He' in Hret. discriminate Hret.
    + rewrite regions_loop_no_epi in Hret.
      * injection Hret as <-. destruct Hin.
      * apply Forall_forall. intros l Hl'.
        destruct (is_substrate l) eqn:Hs; [reflexivity|].
        exfalso. apply He. apply Exists_exists. now exists l.
  - destruct (Exists_dec (fun layer => is_substrate layer = false)
                (rev (layers self))) as [He|He].
    + intro l. destruct (is_substrate l); [right; discriminate | now left].
    + destruct (regions_loop_missing (device_dimensions self) 0 _ 0 []
                  (or_introl Hl) He) as (e & He' & _).
      rewrite He' in Hret. discriminate Hret.
    + rewrite regions_loop_no_epi in Hret.
      * injection Hret as <-. destruct Hin.
      * apply Forall_forall. intros l Hl'.
        destruct (is_substrate l) eqn:Hs; [reflexivity|].
        exfalso. apply He. apply Exists_exists. now exists l.
Qed.

(** X18. The dimensions are looked up only when a region is written: a stack
    with no non-substrate layer gives no region and no error even without
    them, and a stack with one raises [KeyError] when [device_length] or
    [gate_width] is missing. *)
Theorem sentaurus_regions_missing_dimension :
  forall self,
    (Forall (fun layer => is_substrate layer = true) (layers self) ->
     sentaurus_regions self = Return []) /\
    (~ In "device_length" (map fst (device_dimensions self)) \/
     ~ In "gate_width" (map fst (device_dimensions self)) ->
     Exists (fun layer => is_substrate layer = false) (layers self) ->
     raises (sentaurus_regions self) KeyError).
Proof.
  intro self. unfold sentaurus_regions. split.
  - intro H. apply regions_loop_no_epi.
    apply Forall_forall. intros l Hin. apply in_rev in Hin.
    rewrite Forall_forall in H. now apply H.
  - intros Hmiss He. apply regions_loop_missing; [exact Hmiss|].
    apply Exists_exists in He. destruct He as (l & Hin & Hs).
    apply Exists_exists. exists l. split; [now apply in_rev in Hin|exact Hs].
Qed.

Lemma sentaurus_region_numbering_witness :
  exists layer,
    (0 < List.length (layers (default_structure "SiC")))%nat /\
    nth_error (layers (default_structure "SiC"))
      (List.length (layers (default_structure "SiC")) - 1 - 0) = Some layer /\
    is_substrate layer = false /\
    "Cap" = Layer.name layer /\
    "GaN" = Layer.material layer.
Proof.
  apply (sentaurus_region_numbering (default_structure "SiC")
           (regions_from (of_int 10) (of_int 100) 0 0
              (rev (layers (default_structure "SiC"))))
           (mk_Region 0 0 (of_int 10) (of_int 100)
              (0 + of_int 2 / of_int 1000) "Cap" "GaN")).
  - reflexivity.
  - left. reflexivity.
Defined.

Lemma sentaurus_regions_missing_dimension_witness :
  sentaurus_regions (mk_HEMTStructure "SiC" [second_substrate] [] []) =
    Return [] /\
  raises (sentaurus_regions (mk_HEMTStructure "SiC" [default_spacer] [] []))
    KeyError.
Proof.
  split.
  - apply (proj1 (sentaurus_regions_missing_dimension
                    (mk_HEMTStructure "SiC" [second_substrate] [] []))).
    repeat constructor.
  - apply (proj2 (sentaurus_regions_missing_dimension
                    (mk_HEMTStructure "SiC" [default_spacer] [] []))).
    + left. intros [].
    + left. reflexivity.
Defined.

(** ** view_project.py: the lines shown *)

Section ShownLines.

Import ViewProject.
Local Open Scope Z_scope.

Lemma range_nil (a b : Z) : b <= a -> range a b = [].
Proof.
  intro H. unfold range. replace (Z.to_nat (b - a)) with 0%nat by lia.
  reflexivity.
Qed.

Lemma range_cons (a b : Z) : a < b -> range a b = a :: range (a + 1) b.
Proof.
  intro H. unfold range.
  replace (Z.to_nat (b - a)) with (S (Z.to_nat (b - (a + 1)))) by lia.
  cbn [seq map]. f_equal; [lia|].
  rewrite <- seq_shift, map_map. apply map_ext. intro k. lia.
Qed.

Lemma range_ind (P : Z -> Z -> Prop) :
  (forall a b, b <= a -> P a b) ->
  (forall a b, a < b -> P (a + 1) b -> P a b) ->
  forall a b, P a b.
Proof.
  intros Hnil Hcons a b.
  remember (Z.to_nat (b - a)) as n eqn:Hn. revert a Hn.
  induction n as [|n IH]; intros a Hn.
  - apply Hnil. lia.
  - apply Hcons; [lia|]. apply IH. lia.
Qed.

Lemma range_In (a b i : Z) : In i (range a b) <-> a <= i < b.
Proof.
  revert a b. apply (range_ind (fun a b => In i (range a b) <-> a <= i < b)).
  - intros a b H. rewrite range_nil by exact H. simpl. lia.
  - intros a b H IH. rewrite range_cons by exact H. simpl. rewrite IH. lia.
Qed.

Lemma range_length (a b : Z) :
  Z.of_nat (List.length (range a b)) = Z.max 0 (b - a).
Proof. unfold range. rewrite length_map, length_seq. lia. Qed.

Lemma range_NoDup (a b : Z) : NoDup (range a b).
Proof.
  revert a b. apply (range_ind (fun a b => NoDup (range a b))).
  - intros a b H. rewrite range_nil by exact H. constructor.
  - intros a b H IH. rewrite range_cons by exact H. constructor; [|exact IH].
    rewrite range_In. lia.
Qed.

Lemma range_succ (a b : Z) :
  map (fun i => i + 1) (range a b) = range (a + 1) (b + 1).
Proof.
  unfold range. rewrite map_map.
  replace (b + 1 - (a + 1)) with (b - a) by lia.
  apply map_ext. intro k. lia.
Qed.

Lemma filter_range_lt (n a b : Z) :
  filter (fun i => i <? n) (range a b) = range a (Z.min b n).
Proof.
  revert a b.
  apply (range_ind (fun a b => filter (fun i => i <? n) (range a b) =
                               range a (Z.min b n))).
  - intros a b H. rewrite !range_nil by lia. reflexivity.
  - intros a b H IH. rewrite range_cons by exact H. simpl. rewrite IH.
    destruct (Z.ltb_spec a n).
    + rewrite (range_cons a (Z.min b n)) by lia. reflexivity.
    + rewrite !range_nil by lia. reflexivity.
Qed.

Lemma filter_range_ge (a b : Z) :
  filter (fun i => 0 <=? i) (range a b) = range (Z.max a 0) b.
Proof.
  revert a b.
  apply (range_ind (fun a b => filter (fun i => 0 <=? i) (range a b) =
                               range (Z.max a 0) b)).
  - intros a b H. rewrite !range_nil by lia. reflexivity.
  - intros a b H IH. rewrite range_cons by exact H. simpl. rewrite IH.
    destruct (Z.leb_spec 0 a).
    + replace (Z.max a 0) with a by lia.
      replace (Z.max (a + 1) 0) with (a + 1) by lia.
      now rewrite (range_cons a b) by exact H.
    + f_equal. lia.
Qed.

Lemma item_in_range (lines : list string) (i : Z) :
  0 <= i < Z.of_nat (List.length lines) ->
  item lines i = Return (nth (Z.to_nat i) lines EmptyString).
Proof.
  intro H. unfold item.
  destruct (Z.ltb_spec i 0); [lia|].
  destruct (Z.leb_spec 0 i); [|lia].
  destruct (Z.ltb_spec i (Z.of_nat (List.length lines))); [|lia].
  reflexivity.
Qed.

(** A guarded loop whose guard keeps the index inside the list prints the
    guarded lines and raises nothing. *)
Lemma print_guarded_in_range guard indices lines :
  (forall i, In i indices -> guard i = true ->
             0 <= i < Z.of_nat (List.length lines)) ->
  print_guarded guard indices lines =
  Return (map (fun i => Line (i + 1) (nth (Z.to_nat i) lines EmptyString))
            (filter guard indices)).
Proof.
  induction indices as [|i rest IH]; intro H; simpl; [reflexivity|].
  destruct (guard i) eqn:Hg.
  - rewrite item_in_range by (apply H; [now left | exact Hg]). simpl.
    rewrite IH by (intros j Hj; apply H; now right). reflexivity.
  - apply IH. intros j Hj. apply H. now right.
Qed.

Lemma print_all_spec (lines : list string) (i : Z) :
  numbers (print_all i lines) =
    range i (i + Z.of_nat (List.length lines)) /\
  (forall k l, In (Line k l) (print_all i lines) ->
               i <= k /\ nth_error lines (Z.to_nat (k - i)) = Some l) /\
  (forall c, ~ In (Omitted c) (print_all i lines)).
Proof.
  revert i. induction lines as [|line rest IH]; intro i.
  - simpl. rewrite range_nil by lia. repeat split; intros; easy.
  - destruct (IH (i + 1)) as (Hn & Hl & Ho). cbn [print_all numbers flat_map].
    fold (numbers (print_all (i + 1) rest)). rewrite Hn. split; [|split].
    + rewrite (range_cons i) by (cbn [List.length]; lia).
      cbn [app]. f_equal. f_equal. cbn [List.length]. lia.
    + intros k l [[= <- <-] | Hin].
      * split; [lia|]. now rewrite Z.sub_diag.
      * destruct (Hl _ _ Hin) as [Hle Hnth]. split; [lia|].
        replace (Z.to_nat (k - i)) with (S (Z.to_nat (k - (i + 1)))) by lia.
        exact Hnth.
    + intros c [Hc | Hin]; [discriminate Hc | exact (Ho _ Hin)].
Qed.

Lemma numbers_app (xs ys : list printed) :
  numbers (xs ++ ys) = numbers xs ++ numbers ys.
Proof. unfold numbers. apply flat_map_app. Qed.

Lemma numbers_lines (f : Z -> string) (indices : list Z) :
  numbers (map (fun i => Line (i + 1) (f i)) indices) =
  map (fun i => i + 1) indices.
Proof.
  induction indices as [|i rest IH]; simpl; [reflexivity|]. now rewrite IH.
Qed.

(** What [print_lines] returns when the file is longer than [max_lines]. *)
Lemma print_lines_long (lines : list string) (max_lines : Z) :
  let total := Z.of_nat (List.length lines) in
  max_lines < total ->
  print_lines lines max_lines =
  Return
    (map (fun i => Line (i + 1) (nth (Z.to_nat i) lines EmptyString))
       (range 0 (Z.min 25 total)) ++
     [Omitted (total - 50)] ++
     map (fun i => Line (i + 1) (nth (Z.to_nat i) lines EmptyString))
       (range (Z.max (total - 25) 0) total)).
Proof.
  intros total H. unfold print_lines. fold total.
  destruct (Z.leb_spec total max_lines); [lia|].
  rewrite print_guarded_in_range.
  2:{ intros i Hi Hg. apply range_In in Hi. apply Z.ltb_lt in Hg. lia. }
  cbn [bind]. rewrite print_guarded_in_range.
  2:{ intros i Hi Hg. apply range_In in Hi. apply Z.leb_le in Hg.
      fold total. lia. }
  cbn [bind]. fold total. now rewrite filter_range_lt, filter_range_ge.
Qed.

End ShownLines.

Lemma In_lines_map (lines : list string) (indices : list Z) (k : Z)
    (l : string) :
  (forall i, In i indices -> (0 <= i < Z.of_nat (List.length lines))%Z) ->
  In (ViewProject.Line k l)
    (map (fun i => ViewProject.Line (i + 1)
                     (nth (Z.to_nat i) lines EmptyString)) indices) ->
  (1 <= k <= Z.of_nat (List.length lines))%Z /\
  nth_error lines (Z.to_nat (k - 1)) = Some l.
Proof.
  intros Hr Hin. apply in_map_iff in Hin.
  destruct Hin as (i & [= <- <-] & Hi). specialize (Hr i Hi).
  split; [lia|]. replace (i + 1 - 1)%Z with i by lia.
  apply nth_error_nth'. lia.
Qed.

(** X19. The line loops of [print_file_content] never index outside the list,
    so the error handler is not reached by them: every line printed is a
    line of the file under its own number.  A file of at most [max_lines]
    lines is printed whole, once.  A longer file is printed as its first
    25 lines (or all, if fewer), the marker with [total - 50], and its
    last 25 lines (or all), whatever [max_lines] is. *)
Theorem print_lines_shows_file_lines :
  forall lines max_lines,
    let total := Z.of_nat (List.length lines) in
    exists out,
      ViewProject.print_lines lines max_lines = Return out /\
      (forall k l,
          In (ViewProject.Line k l) out ->
          (1 <= k <= total)%Z /\
          nth_error lines (Z.to_nat (k - 1)) = Some l) /\
      ((total <= max_lines)%Z ->
       ViewProject.numbers out = ViewProject.range 1 (total + 1) /\
       forall c, ~ In (ViewProject.Omitted c) out) /\
      ((max_lines < total)%Z ->
       ViewProject.numbers out =
         ViewProject.range 1 (Z.min 25 total + 1) ++
         ViewProject.range (Z.max (total - 25) 0 + 1) (total + 1) /\
       In (ViewProject.Omitted (total - 50)) out).
Proof.
  intros lines max_lines total.
  destruct (Z.leb_spec total max_lines) as [Hle|Hgt].
  - exists (ViewProject.print_all 1 lines).
    destruct (print_all_spec lines 1) as (Hn & Hl & Ho).
    split; [|split; [|split]].
    + unfold ViewProject.print_lines. fold total.
      destruct (Z.leb_spec total max_lines); [reflexivity | lia].
    + intros k l Hin. destruct (Hl _ _ Hin) as [H1 Hnth].
      split; [|exact Hnth].
      assert (Z.to_nat (k - 1) < List.length lines)%nat
        by (apply nth_error_Some; congruence).
      unfold total. lia.
    + intros _. split; [|exact Ho]. rewrite Hn. f_equal. unfold total. lia.
    + lia.
  - eexists. split; [apply print_lines_long; exact Hgt|]. fold total.
    split; [|split; [|split]].
    + intros k l Hin. rewrite !in_app_iff in Hin.
      destruct Hin as [Hin | [[H | []] | Hin]]; [|discriminate H|].
      * apply (In_lines_map lines _ k l) in Hin; [exact Hin|].
        intros i Hi. apply range_In in Hi. fold total. lia.
      * apply (In_lines_map lines _ k l) in Hin; [exact Hin|].
        intros i Hi. apply range_In in Hi. fold total. lia.
    + lia.
    + rewrite !numbers_app, !numbers_lines, !range_succ. reflexivity.
    + apply in_or_app. right. now left.
Qed.

Lemma print_lines_shows_file_lines_witness :
  exists out,
    ViewProject.print_lines ["a"; "b"; "c"] 50 = Return out /\
    ViewProject.numbers out = ViewProject.range 1 (3 + 1) /\
    exists out',
      ViewProject.print_lines ["a"; "b"; "c"] 2 = Return out' /\
      In (ViewProject.Omitted (3 - 50)) out'.
Proof.
  destruct (print_lines_shows_file_lines ["a"; "b"; "c"] 50)
    as (out & H1 & _ & H2 & _).
  destruct (print_lines_shows_file_lines ["a"; "b"; "c"] 2)
    as (out' & H1' & _ & _ & H3').
  exists out. split; [exact H1|].
  split; [apply H2; vm_compute; intro H; discriminate H|].
  exists out'. split; [exact H1'|].
  apply H3'. reflexivity.
Defined.

Lemma NoDup_app_ordered (xs ys : list Z) :
  NoDup xs -> NoDup ys ->
  (forall x y, In x xs -> In y ys -> (x < y)%Z) ->
  NoDup (xs ++ ys).
Proof.
  intros Hx Hy Hlt. induction Hx as [|x xs Hnin _ IH]; simpl; [exact Hy|].
  constructor.
  - rewrite in_app_iff. intros [H | H]; [easy|].
    specialize (Hlt x x (or_introl eq_refl) H). lia.
  - apply IH. intros a b Ha Hb. apply Hlt; [now right | exact Hb].
Qed.

Lemma NoDup_app_common (xs ys : list Z) (k : Z) :
  In k xs -> In k ys -> ~ NoDup (xs ++ ys).
Proof.
  intros Hx Hy Hnd. induction xs as [|x xs IH]; simpl in *; [easy|].
  inversion Hnd as [|? ? Hnin Hnd']; subst.
  destruct Hx as [-> | Hx].
  - apply Hnin. apply in_or_app. now right.
  - now apply IH.
Qed.

Lemma print_lines_numbers (lines : list string) (max_lines : Z) :
  let total := Z.of_nat (List.length lines) in
  exists out,
    ViewProject.print_lines lines max_lines = Return out /\
    ((total <= max_lines)%Z ->
     ViewProject.numbers out = ViewProject.range 1 (total + 1)) /\
    ((max_lines < total)%Z ->
     ViewProject.numbers out =
       ViewProject.range 1 (Z.min 25 total + 1) ++
       ViewProject.range (Z.max (total - 25) 0 + 1) (total + 1) /\
     In (ViewProject.Omitted (total - 50)) out).
Proof.
  intros total. destruct (Z.leb_spec total max_lines) as [Hle|Hgt].
  - exists (ViewProject.print_all 1 lines). split; [|split].
    + unfold ViewProject.print_lines. fold total.
      destruct (Z.leb_spec total max_lines); [reflexivity | lia].
    + intros _. rewrite (proj1 (print_all_spec lines 1)).
      f_equal. unfold total. lia.
    + lia.
  - eexists. split; [apply print_lines_long; exact Hgt|]. fold total.
    split; [lia|]. intros _. split.
    + rewrite !numbers_app, !numbers_lines, !range_succ. reflexivity.
    + apply in_or_app. right. now left.
Qed.

(** X20. With the default limit of 50 lines no line is printed twice, and the
    marker is right: a file of at most 50 lines is shown whole; of a longer
    one exactly 50 lines are shown and the marker gives the number of the
    others. *)
Theorem print_lines_default_limit :
  forall lines,
    let total := Z.of_nat (List.length lines) in
    exists out,
      ViewProject.print_lines lines ViewProject.default_max_lines =
        Return out /\
      NoDup (ViewProject.numbers out) /\
      Z.of_nat (List.length (ViewProject.numbers out)) = Z.min total 50 /\
      ((50 < total)%Z ->
       In (ViewProject.Omitted (total - 50)) out /\
       (Z.of_nat (List.length (ViewProject.numbers out)) + (total - 50) =
        total)%Z).
Proof.
  intros lines total.
  destruct (print_lines_numbers lines ViewProject.default_max_lines)
    as (out & Hout & Hshort & Hlong).
  fold total in Hshort, Hlong. unfold ViewProject.default_max_lines in *.
  exists out. split; [exact Hout|].
  destruct (Z.leb_spec total 50) as [Hle|Hgt].
  - rewrite (Hshort Hle). split; [apply range_NoDup|].
    split; [rewrite range_length; unfold total; lia | lia].
  - destruct (Hlong Hgt) as [Hn Hom]. rewrite Hn.
    assert (Hlen : Z.of_nat
                     (List.length
                        (ViewProject.range 1 (Z.min 25 total + 1) ++
                         ViewProject.range (Z.max (total - 25) 0 + 1)
                           (total + 1))) = 50%Z).
    { rewrite length_app, Nat2Z.inj_add, !range_length. lia. }
    split; [|split; [|split]].
    + apply NoDup_app_ordered; try apply range_NoDup.
      intros x y Hx Hy. apply range_In in Hx, Hy. lia.
    + rewrite Hlen. lia.
    + exact Hom.
    + rewrite Hlen. lia.
Qed.

Lemma print_lines_default_limit_witness :
  exists out,
    ViewProject.print_lines (repeat "x"%string 60)
      ViewProject.default_max_lines = Return out /\
    In (ViewProject.Omitted (60 - 50)) out.
Proof.
  destruct (print_lines_default_limit (repeat "x"%string 60))
    as (out & H1 & _ & _ & H2).
  exists out. split; [exact H1|]. apply H2. reflexivity.
Defined.

(** X21. A limit below 50 does not shorten the output: when the file is
    longer than [max_lines] but shorter than 50 lines, some line is
    printed twice and the marker reports a negative number of omitted
    lines. *)
Theorem print_lines_small_limit_repeats :
  forall lines max_lines,
    let total := Z.of_nat (List.length lines) in
    (max_lines < total)%Z -> (1 <= total < 50)%Z ->
    exists out,
      ViewProject.print_lines lines max_lines = Return out /\
      ~ NoDup (ViewProject.numbers out) /\
      In (ViewProject.Omitted (total - 50)) out /\
      (total - 50 < 0)%Z /\
      (total < Z.of_nat (List.length (ViewProject.numbers out)))%Z.
Proof.
  intros lines max_lines total Hgt Htot.
  destruct (print_lines_numbers lines max_lines)
    as (out & Hout & _ & Hlong).
  fold total in Hlong. destruct (Hlong Hgt) as [Hn Hom].
  exists out. split; [exact Hout|]. rewrite Hn.
  split; [|split; [exact Hom|split; [lia|]]].
  - apply (NoDup_app_common _ _ (Z.min 25 total)); apply range_In; lia.
  - rewrite length_app, Nat2Z.inj_add, !range_length. lia.
Qed.

Lemma print_lines_small_limit_repeats_witness :
  exists out,
    ViewProject.print_lines ["a"; "b"; "c"] 2 = Return out /\
    ~ NoDup (ViewProject.numbers out).
Proof.
  destruct (print_lines_small_limit_repeats ["a"; "b"; "c"] 2)
    as (out & H1 & H2 & _).
  - reflexivity.
  - split; [vm_compute; intro H; discriminate H | reflexivity].
  - exists out. split; [exact H1 | exact H2].
Defined.
